(** * github_audits: review_environments/main.py

    A shallow embedding of the three procedures of the tool
    ([list_github_repos], [analyze_github_repo_environments], [main]) and
    the properties of the specification that are stated about them.

    The program is sequential Python glue around an HTTP API.  It is
    embedded as a state-and-exception monad over
    - the lines printed on standard output,
    - the HTTP requests issued so far,
    - the files written through [csv.writer],
    with the remote API given as an oracle that answers a request knowing
    every request made before it. *)

From Stdlib Require Import ZArith QArith.
From stdpp Require Import base list strings gmap pretty.

Set Default Proof Using "Type".
#[local] Set Warnings "-register-all".

(** ** Python values

    What [response.json()] yields: the value of a JSON document.  A dict is
    kept as the list of its items in insertion order (the keys of a dict are
    distinct; [dict_lookup] takes the first item of a key). *)

Inductive json : Type :=
  | JNull
  | JBool (b : bool)
  | JInt (n : Z)
  | JFloat (q : Q)
  | JStr (s : string)
  | JArr (items : list json)
  | JObj (fields : list (string * json)).

(** The exceptions the program can meet.  None is caught anywhere in
    main.py. *)
Inductive exn : Type :=
  | KeyError (key : string)
  | TypeError
  | AttributeError
  | JSONDecodeError
  | RequestException
  | OSError
  | SystemExit (code : Z).

(** The outcome of running a piece of code: a value, a raised exception, or
    [OutOfFuel] when the bound put on [while True] was reached. *)
Inductive outcome (A : Type) : Type :=
  | Ok (a : A)
  | Raise (e : exn)
  | OutOfFuel.
Arguments Ok {A} a.
Arguments Raise {A} e.
Arguments OutOfFuel {A}.

Fixpoint dict_lookup (key : string) (fields : list (string * json)) : option json :=
  match fields with
  | [] => None
  | (k, v) :: rest => if String.eqb k key then Some v else dict_lookup key rest
  end.

(** [v[key]] for a string key. *)
Definition py_getitem (v : json) (key : string) : outcome json :=
  match v with
  | JObj fields =>
      match dict_lookup key fields with
      | Some x => Ok x
      | None => Raise (KeyError key)
      end
  | _ => Raise TypeError
  end.

(** [v.get(key, default)]: only a dict has the method. *)
Definition py_get (v : json) (key : string) (default : json) : outcome json :=
  match v with
  | JObj fields =>
      match dict_lookup key fields with
      | Some x => Ok x
      | None => Ok default
      end
  | _ => Raise AttributeError
  end.

(** What [for x in v] goes through: the items of a list, the keys of a dict,
    the characters of a str. *)
Definition py_iter (v : json) : outcome (list json) :=
  match v with
  | JArr items => Ok items
  | JObj fields => Ok (map (λ kv, JStr kv.1) fields)
  | JStr s => Ok (map (λ c, JStr (String c EmptyString)) (String.list_ascii_of_string s))
  | _ => Raise TypeError
  end.

(** Truth value, as tested by [if not v]. *)
Definition py_bool (v : json) : bool :=
  match v with
  | JNull => false
  | JBool b => b
  | JInt n => negb (n =? 0)%Z
  | JFloat q => negb (Qnum q =? 0)%Z
  | JStr s => negb (String.eqb s "")
  | JArr items => match items with [] => false | _ => true end
  | JObj fields => match fields with [] => false | _ => true end
  end.

(** ** The HTTP interface of [requests] *)

Record Request : Type := mkRequest {
  req_url : string;
  req_headers : list (string * string)
}.

(** A response: its status, its body as text, and the body decoded as JSON
    when it is a JSON document ([response.json()] raises otherwise). *)
Record Response : Type := mkResponse {
  status_code : Z;
  text : string;
  json_body : option json
}.

(** [requests.get] either returns a response or raises (connection refused,
    DNS failure, ...). *)
Inductive HttpOutcome : Type :=
  | Responded (r : Response)
  | TransportError.

(** The remote API: the answer to a request, given the requests made before
    it (oldest first). *)
Definition Oracle : Type := list Request → Request → HttpOutcome.

(** ** Rows and program state *)

Definition Row : Type := list json.

Record State : Type := mkState {
  stdout : list string;
  requests : list Request;
  files : gmap string (list Row)
}.

Definition M (A : Type) : Type := State → outcome A * State.

Definition ret {A} (a : A) : M A := λ st, (Ok a, st).

Definition bind {A B} (m : M A) (k : A → M B) : M B :=
  λ st,
    match m st with
    | (Ok a, st') => k a st'
    | (Raise e, st') => (Raise e, st')
    | (OutOfFuel, st') => (OutOfFuel, st')
    end.

Definition raise {A} (e : exn) : M A := λ st, (Raise e, st).

(** A pure Python operation inside the program. *)
Definition lift {A} (o : outcome A) : M A := λ st, (o, st).

Declare Scope py_scope.
Delimit Scope py_scope with py.
Notation "x <~ c ;; k" := (bind c (λ x, k))
  (at level 100, c at next level, right associativity) : py_scope.
Notation "c ;;; k" := (bind c (λ _, k))
  (at level 100, right associativity) : py_scope.
Open Scope py_scope.

(** [for x in xs: acc = body(acc, x)] *)
Fixpoint for_each {A S} (body : S → A → M S) (xs : list A) (acc : S) : M S :=
  match xs with
  | [] => ret acc
  | x :: rest => acc' <~ body acc x ;; for_each body rest acc'
  end.

(** [[f(x) for x in xs]] *)
Fixpoint comprehension {A B} (f : A → outcome B) (xs : list A) : outcome (list B) :=
  match xs with
  | [] => Ok []
  | x :: rest =>
      match f x with
      | Ok y =>
          match comprehension f rest with
          | Ok ys => Ok (y :: ys)
          | Raise e => Raise e
          | OutOfFuel => OutOfFuel
          end
      | Raise e => Raise e
      | OutOfFuel => OutOfFuel
      end
  end.

Definition print (line : string) : M unit :=
  λ st, (Ok tt, mkState (stdout st ++ [line]) (requests st) (files st)).

(** The rows of the file a writer is attached to. *)
Definition written (st : State) (path : string) : list Row :=
  default [] (files st !! path).

(** [csv_writer.writerow(row)]: a writer is known by the path of its file. *)
Definition writerow (csv_writer : string) (row : Row) : M unit :=
  λ st, (Ok tt, mkState (stdout st) (requests st)
                  (<[csv_writer := written st csv_writer ++ [row]]> (files st))).

Definition response_json (r : Response) : M json :=
  match json_body r with
  | Some v => ret v
  | None => raise JSONDecodeError
  end.

Definition gh_headers (token : string) : list (string * string) :=
  [("Accept", "application/vnd.github+json");
   ("Authorization", "Bearer " +:+ token);
   ("X-GitHub-Api-Version", "2022-11-28")].

(** What [parser.parse_args()] does with the command line: it returns the
    two arguments or leaves the process ([SystemExit], status 2 on a usage
    error, 0 after [--help]). *)
Record Namespace : Type := mkNamespace { org : string; csv : string }.

Inductive ParseOutcome : Type :=
  | Parsed (args : Namespace)
  | ParseExit (code : Z).

Section Program.

(** [str(v)] for a value that is not a str, as an f-string formats it
    (Python's own [repr] of numbers, lists and dicts). *)
Variable str_other : json → string.

(** The GitHub API. *)
Variable github : Oracle.

Definition py_str (v : json) : string :=
  match v with
  | JStr s => s
  | _ => str_other v
  end.

(** [requests.get(url, headers=headers)] *)
Definition requests_get (url : string) (headers : list (string * string)) : M Response :=
  λ st,
    let rq := mkRequest url headers in
    let st' := mkState (stdout st) (requests st ++ [rq]) (files st) in
    match github (requests st) rq with
    | Responded r => (Ok r, st')
    | TransportError => (Raise RequestException, st')
    end.

(** *** analyze_github_repo_environments *)

(** Lines 49-50: the loop over the secrets of one environment. *)
Definition append_secret (repo_name env_name : json) (results : list Row) (secret : json)
  : M (list Row) :=
  name <~ lift (py_getitem secret "name") ;;
  ret (results ++ [[JStr "SECRET"; repo_name; env_name; name]]).

(** Lines 60-67: the loop over the variables of one environment. *)
Definition append_variable (repo_name env_name : json) (results : list Row) (variable : json)
  : M (list Row) :=
  name <~ lift (py_getitem variable "name") ;;
  value <~ lift (py_get variable "value" (JStr "")) ;;
  ret (results ++ [[JStr "VARIABLE"; repo_name; env_name; name; value]]).

(** Lines 43-52: the secrets of one environment. *)
Definition collect_secrets (base_url : string) (headers : list (string * string))
    (repo_name env_name : json) (results : list Row) : M (list Row) :=
  let secrets_url := base_url +:+ "/environments/" +:+ py_str env_name +:+ "/secrets" in
  secrets_response <~ requests_get secrets_url headers ;;
  if (status_code secrets_response =? 200)%Z then
    secrets_data <~ response_json secrets_response ;;
    secrets <~ lift (py_get secrets_data "secrets" (JArr [])) ;;
    items <~ lift (py_iter secrets) ;;
    for_each (append_secret repo_name env_name) items results
  else
    print ("Error retrieving secrets for environment " +:+ py_str env_name +:+ ": "
           +:+ pretty (status_code secrets_response)) ;;;
    ret results.

(** Lines 54-69: the variables of one environment. *)
Definition collect_variables (base_url : string) (headers : list (string * string))
    (repo_name env_name : json) (results : list Row) : M (list Row) :=
  let variables_url := base_url +:+ "/environments/" +:+ py_str env_name +:+ "/variables" in
  variables_response <~ requests_get variables_url headers ;;
  if (status_code variables_response =? 200)%Z then
    variables_data <~ response_json variables_response ;;
    variables <~ lift (py_get variables_data "variables" (JArr [])) ;;
    items <~ lift (py_iter variables) ;;
    for_each (append_variable repo_name env_name) items results
  else
    print ("Error retrieving variables for environment " +:+ py_str env_name +:+ ": "
           +:+ pretty (status_code variables_response)) ;;;
    ret results.

(** Lines 40-69: the body of [for env in environments]. *)
Definition audit_environment (base_url : string) (headers : list (string * string))
    (repo_name : json) (results : list Row) (env : json) : M (list Row) :=
  env_name <~ lift (py_getitem env "name") ;;
  results <~ collect_secrets base_url headers repo_name env_name results ;;
  collect_variables base_url headers repo_name env_name results.

Definition analyze_github_repo_environments (repo_name : json) (token : string)
    (csv_writer : string) : M unit :=
  let base_url := "https://api.github.com/repos/" +:+ py_str repo_name in
  let headers := gh_headers token in
  print ("Attempting to dump config for " +:+ py_str repo_name) ;;;
  let environments_url := base_url +:+ "/environments" in
  environments_response <~ requests_get environments_url headers ;;
  if negb (status_code environments_response =? 200)%Z then
    print ("Error retrieving environments: "
           +:+ pretty (status_code environments_response)) ;;;
    print (text environments_response) ;;;
    ret tt
  else
    environments_data <~ response_json environments_response ;;
    environments <~ lift (py_get environments_data "environments" (JArr [])) ;;
    envs <~ lift (py_iter environments) ;;
    results <~ for_each (audit_environment base_url headers repo_name) envs [] ;;
    for_each (λ _ row, writerow csv_writer row) results tt ;;;
    print "success. results added to output".


(** *** list_github_repos *)

(** Line 114: the address of one page of the listing. *)
Definition page_url (base_url : string) (page : Z) : string :=
  base_url +:+ "?per_page=100&page=" +:+ pretty page.

(** Lines 113-126: [while True].  [fuel] bounds the number of iterations;
    the loop itself has no bound. *)
Fixpoint fetch_pages (fuel : nat) (base_url : string) (headers : list (string * string))
    (repos : list json) (page : Z) : M (list json) :=
  match fuel with
  | O => lift OutOfFuel
  | S fuel' =>
      response <~ requests_get (page_url base_url page) headers ;;
      if negb (status_code response =? 200)%Z then
        print ("Error: " +:+ pretty (status_code response)) ;;;
        print (text response) ;;;
        ret repos
      else
        page_repos <~ response_json response ;;
        if negb (py_bool page_repos) then ret repos
        else
          items <~ lift (py_iter page_repos) ;;
          names <~ lift (comprehension (λ repo, py_getitem repo "full_name") items) ;;
          fetch_pages fuel' base_url headers (repos ++ names) (page + 1)%Z
  end.

Definition org_url (account_name : string) : string :=
  "https://api.github.com/orgs/" +:+ account_name.

Definition org_repos_url (account_name : string) : string :=
  "https://api.github.com/orgs/" +:+ account_name +:+ "/repos".

Definition user_repos_url (account_name : string) : string :=
  "https://api.github.com/users/" +:+ account_name +:+ "/repos".

Definition list_github_repos (fuel : nat) (account_name token : string) : M (list json) :=
  let headers := gh_headers token in
  org_response <~ requests_get (org_url account_name) headers ;;
  let '(base_url, account_type) :=
    if negb (status_code org_response =? 200)%Z
    then (user_repos_url account_name, "user")
    else (org_repos_url account_name, "organization") in
  print ("Detected account type: " +:+ account_type) ;;;
  fetch_pages fuel base_url headers [] 1.

(** *** main *)

(** [parser.parse_args()] on the command line of the process. *)
Variable parse_args : list string → ParseOutcome.

(** Whether [open(path, 'w')] succeeds. *)
Variable writable : string → bool.

(** [open(path, 'w', newline='')]: the file is created or truncated. *)
Definition open_w (path : string) : M string :=
  λ st,
    if writable path
    then (Ok path, mkState (stdout st) (requests st) (<[path := []]> (files st)))
    else (Raise OSError, st).

(** [exit(code)] *)
Definition exit {A} (code : Z) : M A := raise (SystemExit code).

(** [not github_token] for the result of [os.environ.get]. *)
Definition not_token (github_token : option string) : bool :=
  match github_token with
  | None => true
  | Some s => String.eqb s ""
  end.

(** Past the test of line 148, [github_token] is a str that is not empty;
    [token] is that str. *)
Definition main (fuel : nat) (argv : list string) (environ : gmap string string) : M unit :=
  match parse_args argv with
  | ParseExit code => exit code
  | Parsed args =>
      let org_name := org args in
      let csv_file := csv args in
      let github_token := environ !! "GITHUB_TOKEN" in
      (if not_token github_token then
         print "Please set GITHUB_TOKEN environment variable" ;;;
         exit 1
       else ret tt) ;;;
      let token := default "" github_token in
      repos <~ list_github_repos fuel org_name token ;;
      csv_writer <~ open_w csv_file ;;
      for_each (λ _ repo_name, analyze_github_repo_environments repo_name token csv_writer)
        repos tt
  end.

(** ** Vocabulary of the statements *)

Definition get_request (url token : string) : Request :=
  mkRequest url (gh_headers token).

(** The call [rq] succeeds, whenever it is made, with JSON body [body]:
    the status is the one the program tests for, 200. *)
Definition succeeds_with (rq : Request) (body : json) : Prop :=
  ∀ h, ∃ r, github h rq = Responded r ∧ status_code r = 200%Z ∧ json_body r = Some body.

(** The call [rq] is answered, whenever it is made, with a status that the
    program takes for a failure: any status other than 200. *)
Definition fails (rq : Request) : Prop :=
  ∀ h, ∃ r, github h rq = Responded r ∧ status_code r ≠ 200%Z.

(** A status outside 2xx. *)
Definition non_success (code : Z) : Prop := ¬ (200 ≤ code < 300)%Z.

(** The call [rq] is answered, whenever it is made, with a non-2xx status. *)
Definition fails_non_2xx (rq : Request) : Prop :=
  ∀ h, ∃ r, github h rq = Responded r ∧ non_success (status_code r).

Definition has_field (o : json) (key : string) (v : json) : Prop :=
  ∃ fields, o = JObj fields ∧ dict_lookup key fields = Some v.

Definition lacks_field (o : json) (key : string) : Prop :=
  ∃ fields, o = JObj fields ∧ dict_lookup key fields = None.

(** The objects listed under [key] in a response body; none when the key is
    absent. *)
Definition entries (body : json) (key : string) (objs : list json) : Prop :=
  has_field body key (JArr objs) ∨ (lacks_field body key ∧ objs = []).

(** A variable object with its name and the value that goes with it. *)
Definition variable_of (o : json) (nv : json * json) : Prop :=
  has_field o "name" nv.1 ∧
  (has_field o "value" nv.2 ∨ (lacks_field o "value" ∧ nv.2 = JStr "")).

Definition repo_url (repo_name : json) : string :=
  "https://api.github.com/repos/" +:+ py_str repo_name.

Definition environments_request (repo_name : json) (token : string) : Request :=
  get_request (repo_url repo_name +:+ "/environments") token.

Definition secrets_request (repo_name env_name : json) (token : string) : Request :=
  get_request (repo_url repo_name +:+ "/environments/" +:+ py_str env_name +:+ "/secrets") token.

Definition variables_request (repo_name env_name : json) (token : string) : Request :=
  get_request (repo_url repo_name +:+ "/environments/" +:+ py_str env_name +:+ "/variables")
    token.

Definition page_request (base_url token : string) (page : Z) : Request :=
  get_request (page_url base_url page) token.

(** The tagged variant of the data model. *)
Inductive OutputRow : Type :=
  | SecretRow (repo environment secret_name : json)
  | VariableRow (repo environment variable_name variable_value : json).

(** The list handed to [writerow] for a row (lines 50 and 61-67). *)
Definition render (r : OutputRow) : Row :=
  match r with
  | SecretRow repo env name => [JStr "SECRET"; repo; env; name]
  | VariableRow repo env name value => [JStr "VARIABLE"; repo; env; name; value]
  end.

Definition row_repo (r : OutputRow) : json :=
  match r with
  | SecretRow repo _ _ => repo
  | VariableRow repo _ _ _ => repo
  end.



(** What the API shows of one environment: its name, the names of its
    secrets and its variables with their values, each in the order of the
    response; [None] stands for a call that failed. *)
Record EnvView : Type := mkEnvView {
  ev_name : json;
  ev_secrets : option (list json);
  ev_variables : option (list (json * json))
}.

Definition secret_rows (repo_name : json) (v : EnvView) : list OutputRow :=
  match ev_secrets v with
  | Some names => map (SecretRow repo_name (ev_name v)) names
  | None => []
  end.

Definition variable_rows (repo_name : json) (v : EnvView) : list OutputRow :=
  match ev_variables v with
  | Some vars => map (λ nv, VariableRow repo_name (ev_name v) nv.1 nv.2) vars
  | None => []
  end.

Definition env_rows (repo_name : json) (v : EnvView) : list OutputRow :=
  secret_rows repo_name v ++ variable_rows repo_name v.

(** The API answers the two calls about an environment as [v] says. *)
Definition shows_secrets (repo_name : json) (token : string) (v : EnvView) : Prop :=
  match ev_secrets v with
  | Some names =>
      ∃ body objs,
        succeeds_with (secrets_request repo_name (ev_name v) token) body ∧
        entries body "secrets" objs ∧
        Forall2 (λ o n, has_field o "name" n) objs names
  | None => fails (secrets_request repo_name (ev_name v) token)
  end.

Definition shows_variables (repo_name : json) (token : string) (v : EnvView) : Prop :=
  match ev_variables v with
  | Some vars =>
      ∃ body objs,
        succeeds_with (variables_request repo_name (ev_name v) token) body ∧
        entries body "variables" objs ∧
        Forall2 variable_of objs vars
  | None => fails (variables_request repo_name (ev_name v) token)
  end.

(** The API lists the environments [views] for the repository, in this
    order, and answers the calls about each of them as its view says. *)
Definition shows_environments (repo_name : json) (token : string) (views : list EnvView)
  : Prop :=
  (∃ body objs,
     succeeds_with (environments_request repo_name token) body ∧
     entries body "environments" objs ∧
     Forall2 (λ o v, has_field o "name" (ev_name v)) objs views) ∧
  Forall (λ v, shows_secrets repo_name token v ∧ shows_variables repo_name token v) views.

(** The listing endpoint the resolver picks after the probe (lines 100-105). *)
Definition listing_url (account_name : string) (org_response : Response) : string :=
  if (status_code org_response =? 200)%Z
  then org_repos_url account_name
  else user_repos_url account_name.

(** The API serves [pages], one after the other, from page number [start]. *)
Definition serves_pages (base_url token : string) (start : Z) (pages : list (list json))
  : Prop :=
  ∀ i objs, pages !! i = Some objs →
    succeeds_with (page_request base_url token (start + Z.of_nat i)) (JArr objs).






(** A row of the repository [repo_name]: the list of one tagged row. *)
Definition row_of (repo_name : json) (row : Row) : Prop :=
  ∃ r, row = render r ∧ row_repo r = repo_name.

(** [m] leaves the files as they are, and what it returns satisfies [Q]. *)
Definition keeps_files {A} (Q : A → Prop) (m : M A) : Prop :=
  ∀ st, files (m st).2 = files st ∧ ∀ a, (m st).1 = Ok a → Q a.

(** [m] only adds rows of [repo_name] at the end of the file of
    [csv_writer], and what it returns satisfies [Q]. *)
Definition appends {A} (csv_writer : string) (repo_name : json) (Q : A → Prop) (m : M A)
  : Prop :=
  ∀ st,
    (∃ rows, written (m st).2 csv_writer = written st csv_writer ++ rows ∧
             Forall (row_of repo_name) rows ∧
             ∀ path, path ≠ csv_writer → files (m st).2 !! path = files st !! path) ∧
    ∀ a, (m st).1 = Ok a → Q a.


(** ** Vocabulary of the further properties *)

(** A request to the GitHub API that carries the three headers of the tool,
    the credential among them. *)
Definition api_request (token : string) (rq : Request) : Prop :=
  req_headers rq = gh_headers token ∧
  ∃ rest, req_url rq = "https://api.github.com/" +:+ rest.

(** The requests [m] makes all satisfy [P]. *)
Definition asks {A} (P : Request → Prop) (m : M A) : Prop :=
  ∀ st, ∃ new, requests (m st).2 = requests st ++ new ∧ Forall P new.


(** [m] leaves every file but the one at [path] as it is. *)
Definition touches_only {A} (path : string) (m : M A) : Prop :=
  ∀ st p, p ≠ path → files (m st).2 !! p = files st !! p.





(** A listing that never ends: every page, whenever it is asked, comes with
    status 200 and a list, not empty, of objects that have a full name. *)
Definition endless (base_url token : string) : Prop :=
  ∀ h page, ∃ r objs names,
    github h (page_request base_url token page) = Responded r ∧
    status_code r = 200%Z ∧
    json_body r = Some (JArr objs) ∧
    objs ≠ [] ∧
    Forall2 (λ o n, has_field o "full_name" n) objs names.

(** What the API shows of a repository for its audit: its environments as
    [views], or no view at all when the environments call fails. *)
Definition audited (repo_name : json) (token : string) (views : list EnvView) : Prop :=
  shows_environments repo_name token views ∨
  (fails (environments_request repo_name token) ∧ views = []).


(** The requests of the audit of a repository with the environments
    [views]. *)
Definition audit_requests (repo_name : json) (token : string) (views : list EnvView)
  : list Request :=
  environments_request repo_name token
  :: flat_map (λ v, [secrets_request repo_name (ev_name v) token;
                     variables_request repo_name (ev_name v) token]) views.

(** ** A sample API

    An organization [acme] with one full page of repositories, a user [bob]
    whose second page fails, and an organization [tiny] with three
    repositories: [tiny/site] with two environments, [tiny/gone] whose
    environments cannot be read, and [tiny/empty] with none.  A fourth
    repository, [tiny/odd], has an environment that comes without a name. *)

Definition sample_str (v : json) : string :=
  match v with
  | JNull => "None"
  | JBool true => "True"
  | JBool false => "False"
  | JInt n => pretty n
  | _ => "?"
  end.

Definition sample_names (account : string) : list json :=
  map (λ i : nat, JStr (account +:+ "/r" +:+ pretty i)) (seq 0 100).

Definition sample_page (account : string) : list json :=
  map (λ i : nat, JObj [("id", JInt (Z.of_nat i));
                        ("full_name", JStr (account +:+ "/r" +:+ pretty i))]) (seq 0 100).

Definition ok_json (body : json) : Response := mkResponse 200 "(json)" (Some body).

Definition sample_routes : list (string * Response) :=
  [ ("https://api.github.com/orgs/acme", ok_json (JObj [("login", JStr "acme")]));
    ("https://api.github.com/orgs/acme/repos?per_page=100&page=1",
     ok_json (JArr (sample_page "acme")));
    ("https://api.github.com/orgs/acme/repos?per_page=100&page=2", ok_json (JArr []));
    ("https://api.github.com/users/bob/repos?per_page=100&page=1",
     ok_json (JArr (sample_page "bob")));
    ("https://api.github.com/users/bob/repos?per_page=100&page=2",
     mkResponse 502 "Bad Gateway" None);
    ("https://api.github.com/orgs/tiny", ok_json (JObj [("login", JStr "tiny")]));
    ("https://api.github.com/orgs/tiny/repos?per_page=100&page=1",
     ok_json (JArr [JObj [("id", JInt 1); ("full_name", JStr "tiny/site")];
                    JObj [("id", JInt 2); ("full_name", JStr "tiny/gone")];
                    JObj [("id", JInt 3); ("full_name", JStr "tiny/empty")]]));
    ("https://api.github.com/orgs/tiny/repos?per_page=100&page=2", ok_json (JArr []));
    ("https://api.github.com/repos/tiny/site/environments",
     ok_json (JObj [("total_count", JInt 2);
                    ("environments", JArr [JObj [("id", JInt 1); ("name", JStr "prod")];
                                           JObj [("id", JInt 2); ("name", JStr "staging")]])]));
    ("https://api.github.com/repos/tiny/site/environments/prod/secrets",
     ok_json (JObj [("total_count", JInt 2);
                    ("secrets", JArr [JObj [("name", JStr "A")];
                                      JObj [("name", JStr "B")]])]));
    ("https://api.github.com/repos/tiny/site/environments/prod/variables",
     ok_json (JObj [("total_count", JInt 1);
                    ("variables", JArr [JObj [("name", JStr "X"); ("value", JStr "1")]])]));
    ("https://api.github.com/repos/tiny/site/environments/staging/secrets",
     mkResponse 403 "Forbidden" (Some (JObj [("message", JStr "Forbidden")])));
    ("https://api.github.com/repos/tiny/site/environments/staging/variables",
     ok_json (JObj [("total_count", JInt 1);
                    ("variables", JArr [JObj [("name", JStr "Y")]])]));
    ("https://api.github.com/repos/tiny/empty/environments",
     ok_json (JObj [("total_count", JInt 0); ("environments", JArr [])]));
    ("https://api.github.com/repos/tiny/odd/environments",
     ok_json (JObj [("total_count", JInt 1);
                    ("environments", JArr [JObj [("id", JInt 7)]])])) ].

Fixpoint route (url : string) (routes : list (string * Response)) : option Response :=
  match routes with
  | [] => None
  | (u, r) :: rest => if String.eqb u url then Some r else route url rest
  end.

Definition not_found : Response :=
  mkResponse 404 "Not Found" (Some (JObj [("message", JStr "Not Found")])).

Definition sample_github : Oracle :=
  λ _ rq, Responded (default not_found (route (req_url rq) sample_routes)).

(** An API that answers every request with the same page of one
    repository, whatever the page asked. *)
Definition endless_github : Oracle :=
  λ _ _, Responded (ok_json (JArr [JObj [("id", JInt 1); ("full_name", JStr "loop/again")]])).

Definition sample_parse_args (argv : list string) : ParseOutcome :=
  match argv with
  | ["--org"; o; "--csv"; c] => Parsed (mkNamespace o c)
  | ["-h"] => ParseExit 0
  | _ => ParseExit 2
  end.

Definition sample_writable (path : string) : bool := true.

Definition empty_state : State := mkState [] [] ∅.

Definition site_views : list EnvView :=
  [ mkEnvView (JStr "prod") (Some [JStr "A"; JStr "B"]) (Some [(JStr "X", JStr "1")]);
    mkEnvView (JStr "staging") None (Some [(JStr "Y", JStr "")]) ].

(** An API with one repository, [late/fail]: its first environment has a
    secret, its second comes without a name. *)
Definition late_routes : list (string * Response) :=
  [ ("https://api.github.com/repos/late/fail/environments",
     ok_json (JObj [("total_count", JInt 2);
                    ("environments", JArr [JObj [("id", JInt 1); ("name", JStr "prod")];
                                           JObj [("id", JInt 2)]])]));
    ("https://api.github.com/repos/late/fail/environments/prod/secrets",
     ok_json (JObj [("total_count", JInt 1);
                    ("secrets", JArr [JObj [("name", JStr "A")]])]));
    ("https://api.github.com/repos/late/fail/environments/prod/variables",
     ok_json (JObj [("total_count", JInt 0); ("variables", JArr [])])) ].

Definition late_github : Oracle :=
  λ _ rq, Responded (default not_found (route (req_url rq) late_routes)).


(** ** Running the monad *)

Lemma bind_Ok {A B} (m : M A) (k : A → M B) st a st' :
  m st = (Ok a, st') → bind m k st = k a st'.
Proof. unfold bind. by intros ->. Qed.

Lemma bind_Raise {A B} (m : M A) (k : A → M B) st e st' :
  m st = (Raise e, st') → bind m k st = (Raise e, st').
Proof. unfold bind. by intros ->. Qed.

Lemma bind_ret {A B} (a : A) (k : A → M B) st : bind (ret a) k st = k a st.
Proof. done. Qed.

Lemma bind_lift_Ok {A B} (a : A) (k : A → M B) st : bind (lift (Ok a)) k st = k a st.
Proof. done. Qed.

Lemma bind_print {B} line (k : unit → M B) st :
  bind (print line) k st = k tt (mkState (stdout st ++ [line]) (requests st) (files st)).
Proof. done. Qed.

(** Runs the steps whose result is known. *)
Ltac run :=
  repeat first
    [ rewrite bind_ret
    | rewrite bind_lift_Ok
    | rewrite bind_print
    | match goal with
      | H : ?m ?st = (Ok _, _) |- context [bind ?m _ ?st] => rewrite (bind_Ok _ _ _ _ _ H)
      end ].

Lemma has_field_getitem o key v : has_field o key v → py_getitem o key = Ok v.
Proof. intros (fields & -> & H). simpl. by rewrite H. Qed.

Lemma has_field_get o key v d : has_field o key v → py_get o key d = Ok v.
Proof. intros (fields & -> & H). simpl. by rewrite H. Qed.

Lemma lacks_field_get o key d : lacks_field o key → py_get o key d = Ok d.
Proof. intros (fields & -> & H). simpl. by rewrite H. Qed.

Lemma entries_get body key objs :
  entries body key objs → py_get body key (JArr []) = Ok (JArr objs).
Proof.
  intros [H | [H ->]].
  - by apply has_field_get.
  - by apply lacks_field_get.
Qed.

Lemma variable_of_get o nv :
  variable_of o nv → py_getitem o "name" = Ok nv.1 ∧ py_get o "value" (JStr "") = Ok nv.2.
Proof.
  intros [Hn Hv]. split; [by apply has_field_getitem |].
  destruct Hv as [Hv | [Hv ->]].
  - by apply has_field_get.
  - by apply lacks_field_get.
Qed.

Lemma non_success_not_200 code : non_success code → code ≠ 200%Z.
Proof. unfold non_success. lia. Qed.

Lemma fails_non_2xx_fails rq : fails_non_2xx rq → fails rq.
Proof.
  intros H h. destruct (H h) as (r & Hr & Hc).
  exists r. split; [done | by apply non_success_not_200].
Qed.

(** A request that succeeds: the response is returned and only the trace of
    requests grows. *)
Lemma requests_get_succeeds url token body st :
  succeeds_with (get_request url token) body →
  ∃ r st', requests_get url (gh_headers token) st = (Ok r, st') ∧
    (status_code r =? 200)%Z = true ∧ json_body r = Some body ∧
    files st' = files st ∧ stdout st' = stdout st.
Proof.
  intros H. destruct (H (requests st)) as (r & Hr & Hc & Hj).
  exists r. eexists. unfold requests_get. fold (get_request url token).
  rewrite Hr. split_and!; eauto. by apply Z.eqb_eq.
Qed.

Lemma requests_get_fails url token st :
  fails (get_request url token) →
  ∃ r st', requests_get url (gh_headers token) st = (Ok r, st') ∧
    (status_code r =? 200)%Z = false ∧
    files st' = files st ∧ stdout st' = stdout st.
Proof.
  intros H. destruct (H (requests st)) as (r & Hr & Hc).
  exists r. eexists. unfold requests_get. fold (get_request url token).
  rewrite Hr. split_and!; eauto. by apply Z.eqb_neq.
Qed.

(** *** The two inner loops *)

Lemma for_each_append_secret repo_name env_name objs names results st :
  Forall2 (λ o n, has_field o "name" n) objs names →
  for_each (append_secret repo_name env_name) objs results st
  = (Ok (results ++ map render (map (SecretRow repo_name env_name) names)), st).
Proof.
  intros H. revert results. induction H as [|o n objs names Hn _ IH]; intros results.
  - simpl. by rewrite app_nil_r.
  - simpl. unfold append_secret at 1.
    rewrite (has_field_getitem _ _ _ Hn). cbn [bind lift ret].
    rewrite IH. by rewrite <- app_assoc.
Qed.

Lemma for_each_append_variable repo_name env_name objs vars results st :
  Forall2 variable_of objs vars →
  for_each (append_variable repo_name env_name) objs results st
  = (Ok (results ++
         map render (map (λ nv, VariableRow repo_name env_name nv.1 nv.2) vars)), st).
Proof.
  intros H. revert results. induction H as [|o nv objs vars Hv _ IH]; intros results.
  - simpl. by rewrite app_nil_r.
  - simpl. unfold append_variable at 1.
    destruct (variable_of_get _ _ Hv) as [-> ->]. cbn [bind lift ret].
    rewrite IH. by rewrite <- app_assoc.
Qed.

(** *** One environment *)

Lemma collect_secrets_rows repo_name token v results st :
  shows_secrets repo_name token v →
  ∃ st',
    collect_secrets (repo_url repo_name) (gh_headers token) repo_name (ev_name v) results st
    = (Ok (results ++ map render (secret_rows repo_name v)), st') ∧
    files st' = files st.
Proof.
  unfold shows_secrets, secret_rows, collect_secrets. intros H.
  destruct (ev_secrets v) as [names|].
  - destruct H as (body & objs & Hcall & Hent & Hnames).
    destruct (requests_get_succeeds _ _ _ st Hcall) as (r & st1 & Hget & Hc & Hj & Hf & _).
    exists st1. split; [|done].
    run. rewrite Hc. unfold response_json. rewrite Hj. run.
    rewrite (entries_get _ _ _ Hent). run. simpl py_iter. run.
    by apply for_each_append_secret.
  - destruct (requests_get_fails _ _ st H) as (r & st1 & Hget & Hc & Hf & _).
    eexists. run. rewrite Hc. run. unfold ret. rewrite app_nil_r. split; [done|]. by simpl.
Qed.

Lemma collect_variables_rows repo_name token v results st :
  shows_variables repo_name token v →
  ∃ st',
    collect_variables (repo_url repo_name) (gh_headers token) repo_name (ev_name v) results st
    = (Ok (results ++ map render (variable_rows repo_name v)), st') ∧
    files st' = files st.
Proof.
  unfold shows_variables, variable_rows, collect_variables. intros H.
  destruct (ev_variables v) as [vars|].
  - destruct H as (body & objs & Hcall & Hent & Hvars).
    destruct (requests_get_succeeds _ _ _ st Hcall) as (r & st1 & Hget & Hc & Hj & Hf & _).
    exists st1. split; [|done].
    run. rewrite Hc. unfold response_json. rewrite Hj. run.
    rewrite (entries_get _ _ _ Hent). run. simpl py_iter. run.
    by apply for_each_append_variable.
  - destruct (requests_get_fails _ _ st H) as (r & st1 & Hget & Hc & Hf & _).
    eexists. run. rewrite Hc. run. unfold ret. rewrite app_nil_r. split; [done|]. by simpl.
Qed.

Lemma audit_environment_rows repo_name token env v results st :
  has_field env "name" (ev_name v) →
  shows_secrets repo_name token v →
  shows_variables repo_name token v →
  ∃ st',
    audit_environment (repo_url repo_name) (gh_headers token) repo_name results env st
    = (Ok (results ++ map render (env_rows repo_name v)), st') ∧
    files st' = files st.
Proof.
  intros Hn Hs Hv. unfold audit_environment.
  rewrite (has_field_getitem _ _ _ Hn).
  destruct (collect_secrets_rows repo_name token v results st Hs) as (st1 & Hrun1 & Hf1).
  destruct (collect_variables_rows repo_name token v
              (results ++ map render (secret_rows repo_name v)) st1 Hv) as (st2 & Hrun2 & Hf2).
  exists st2. run. rewrite Hrun2.
  unfold env_rows. rewrite map_app, app_assoc. split; [done | congruence].
Qed.

Lemma for_each_audit_environment repo_name token envs views results st :
  Forall2 (λ o v, has_field o "name" (ev_name v)) envs views →
  Forall (λ v, shows_secrets repo_name token v ∧ shows_variables repo_name token v) views →
  ∃ st',
    for_each (audit_environment (repo_url repo_name) (gh_headers token) repo_name)
      envs results st
    = (Ok (results ++ map render (flat_map (env_rows repo_name) views)), st') ∧
    files st' = files st.
Proof.
  intros Hnames. revert results st.
  induction Hnames as [|env v envs views Hn _ IH]; intros results st Hall.
  - exists st. simpl. by rewrite app_nil_r.
  - apply Forall_cons in Hall as [[Hs Hv] Hall].
    destruct (audit_environment_rows repo_name token env v results st Hn Hs Hv)
      as (st1 & Hrun & Hf1).
    destruct (IH (results ++ map render (env_rows repo_name v)) st1 Hall)
      as (st2 & Hrest & Hf2).
    exists st2. simpl. rewrite (bind_Ok _ _ _ _ _ Hrun), Hrest.
    rewrite map_app, app_assoc. split; [done | congruence].
Qed.

(** Lines 72-73: the rows reach the file in order; no other file changes. *)
Lemma for_each_writerow csv_writer rows st :
  ∃ st',
    for_each (λ _ row, writerow csv_writer row) rows tt st = (Ok tt, st') ∧
    written st' csv_writer = written st csv_writer ++ rows ∧
    (∀ path, path ≠ csv_writer → files st' !! path = files st !! path) ∧
    (rows = [] → files st' = files st) ∧
    stdout st' = stdout st ∧ requests st' = requests st.
Proof.
  revert st. induction rows as [|row rows IH]; intros st.
  - exists st. simpl. by rewrite app_nil_r.
  - simpl. unfold bind, writerow at 1.
    destruct (IH (mkState (stdout st) (requests st)
                    (<[csv_writer := written st csv_writer ++ [row]]> (files st))))
      as (st' & -> & Hw & Ho & _ & Hs & Hr).
    exists st'. split_and!; try done.
    + rewrite Hw. unfold written at 1. simpl. rewrite lookup_insert_eq. simpl.
      by rewrite <- app_assoc.
    + intros path Hp. rewrite (Ho path Hp). simpl. by rewrite lookup_insert_ne.
Qed.

(** *** The whole audit of a repository whose responses are known *)



(** *** What holds of the audit whatever the API answers *)

Lemma keeps_files_ret {A} (Q : A → Prop) a : Q a → keeps_files Q (ret a).
Proof. intros H st. split; [done |]. simpl. by intros ? [= <-]. Qed.

Lemma keeps_files_lift {A} (Q : A → Prop) (o : outcome A) :
  (∀ a, o = Ok a → Q a) → keeps_files Q (lift o).
Proof. intros H st. split; [done | apply H]. Qed.

Lemma keeps_files_bind {A B} (P : A → Prop) (Q : B → Prop) (m : M A) (k : A → M B) :
  keeps_files P m → (∀ a, P a → keeps_files Q (k a)) → keeps_files Q (bind m k).
Proof.
  intros Hm Hk st. unfold bind. destruct (Hm st) as [Hf Ha].
  destruct (m st) as [[a | e |] st1]; simpl in *; [| done | done].
  destruct (Hk a (Ha a eq_refl) st1) as [Hf' Hb].
  split; [congruence | done].
Qed.

Lemma keeps_files_print line : keeps_files (λ _, True) (print line).
Proof. intros st. by split. Qed.

Lemma keeps_files_requests_get url headers :
  keeps_files (λ _, True) (requests_get url headers).
Proof. intros st. unfold requests_get. by destruct (github _ _). Qed.

Lemma keeps_files_response_json r : keeps_files (λ _, True) (response_json r).
Proof. intros st. unfold response_json. by destruct (json_body r). Qed.

Lemma keeps_files_for_each {A S} (P : S → Prop) (body : S → A → M S) xs acc :
  (∀ acc x, P acc → keeps_files P (body acc x)) →
  P acc → keeps_files P (for_each body xs acc).
Proof.
  intros Hbody. revert acc. induction xs as [|x xs IH]; intros acc Hacc; simpl.
  - by apply keeps_files_ret.
  - eapply keeps_files_bind; [by apply Hbody | apply IH].
Qed.

Lemma keeps_files_append_secret repo_name env_name results secret :
  Forall (row_of repo_name) results →
  keeps_files (Forall (row_of repo_name)) (append_secret repo_name env_name results secret).
Proof.
  intros H. unfold append_secret.
  eapply keeps_files_bind; [by apply (keeps_files_lift (λ _, True)) |].
  intros name _. apply keeps_files_ret. apply Forall_app. split; [done |].
  apply Forall_singleton. by exists (SecretRow repo_name env_name name).
Qed.

Lemma keeps_files_append_variable repo_name env_name results variable :
  Forall (row_of repo_name) results →
  keeps_files (Forall (row_of repo_name))
    (append_variable repo_name env_name results variable).
Proof.
  intros H. unfold append_variable.
  eapply keeps_files_bind; [by apply (keeps_files_lift (λ _, True)) |].
  intros name _.
  eapply keeps_files_bind; [by apply (keeps_files_lift (λ _, True)) |].
  intros value _. apply keeps_files_ret. apply Forall_app. split; [done |].
  apply Forall_singleton. by exists (VariableRow repo_name env_name name value).
Qed.

Lemma keeps_files_collect_secrets base_url headers repo_name env_name results :
  Forall (row_of repo_name) results →
  keeps_files (Forall (row_of repo_name))
    (collect_secrets base_url headers repo_name env_name results).
Proof.
  intros H. unfold collect_secrets.
  eapply keeps_files_bind; [apply keeps_files_requests_get |].
  intros r _. destruct (status_code r =? 200)%Z.
  - eapply keeps_files_bind; [apply keeps_files_response_json |]. intros body _.
    eapply keeps_files_bind; [by apply (keeps_files_lift (λ _, True)) |]. intros secrets _.
    eapply keeps_files_bind; [by apply (keeps_files_lift (λ _, True)) |]. intros items _.
    apply keeps_files_for_each; [| done].
    intros acc x Hacc. by apply keeps_files_append_secret.
  - eapply keeps_files_bind; [apply keeps_files_print |].
    intros _ _. by apply keeps_files_ret.
Qed.

Lemma keeps_files_collect_variables base_url headers repo_name env_name results :
  Forall (row_of repo_name) results →
  keeps_files (Forall (row_of repo_name))
    (collect_variables base_url headers repo_name env_name results).
Proof.
  intros H. unfold collect_variables.
  eapply keeps_files_bind; [apply keeps_files_requests_get |].
  intros r _. destruct (status_code r =? 200)%Z.
  - eapply keeps_files_bind; [apply keeps_files_response_json |]. intros body _.
    eapply keeps_files_bind; [by apply (keeps_files_lift (λ _, True)) |]. intros variables _.
    eapply keeps_files_bind; [by apply (keeps_files_lift (λ _, True)) |]. intros items _.
    apply keeps_files_for_each; [| done].
    intros acc x Hacc. by apply keeps_files_append_variable.
  - eapply keeps_files_bind; [apply keeps_files_print |].
    intros _ _. by apply keeps_files_ret.
Qed.

Lemma keeps_files_audit_environment base_url headers repo_name results env :
  Forall (row_of repo_name) results →
  keeps_files (Forall (row_of repo_name))
    (audit_environment base_url headers repo_name results env).
Proof.
  intros H. unfold audit_environment.
  eapply keeps_files_bind; [by apply (keeps_files_lift (λ _, True)) |]. intros env_name _.
  eapply keeps_files_bind; [by apply keeps_files_collect_secrets |].
  intros results' H'. by apply keeps_files_collect_variables.
Qed.

Lemma keeps_files_appends {A} csv_writer repo_name (Q : A → Prop) (m : M A) :
  keeps_files Q m → appends csv_writer repo_name Q m.
Proof.
  intros H st. destruct (H st) as [Hf Ha]. split; [| done].
  exists []. unfold written. rewrite Hf, app_nil_r. by split_and!.
Qed.

Lemma appends_bind {A B} csv_writer repo_name (P : A → Prop) (Q : B → Prop)
    (m : M A) (k : A → M B) :
  appends csv_writer repo_name P m →
  (∀ a, P a → appends csv_writer repo_name Q (k a)) →
  appends csv_writer repo_name Q (bind m k).
Proof.
  intros Hm Hk st. unfold bind. destruct (Hm st) as [Hrows Ha].
  destruct (m st) as [[a | e |] st1]; simpl in *; [| done | done].
  destruct (Hk a (Ha a eq_refl) st1) as [Hrows' Hb]. split; [| done].
  destruct Hrows as (rows1 & Hw1 & Hall1 & Ho1).
  destruct Hrows' as (rows2 & Hw2 & Hall2 & Ho2).
  exists (rows1 ++ rows2). split_and!.
  - by rewrite Hw2, Hw1, app_assoc.
  - by apply Forall_app.
  - intros path Hp. by rewrite Ho2, Ho1.
Qed.

Lemma appends_writerows csv_writer repo_name rows :
  Forall (row_of repo_name) rows →
  appends csv_writer repo_name (λ _, True)
    (for_each (λ _ row, writerow csv_writer row) rows tt).
Proof.
  intros H st. destruct (for_each_writerow csv_writer rows st) as (st' & -> & Hw & Ho & _).
  split; [| done]. by exists rows.
Qed.

Lemma analyze_appends repo_name token csv_writer :
  appends csv_writer repo_name (λ _, True)
    (analyze_github_repo_environments repo_name token csv_writer).
Proof.
  unfold analyze_github_repo_environments.
  eapply appends_bind; [apply keeps_files_appends, keeps_files_print |]. intros _ _.
  eapply appends_bind; [apply keeps_files_appends, keeps_files_requests_get |]. intros r _.
  destruct (negb (status_code r =? 200)%Z).
  - eapply appends_bind; [apply keeps_files_appends, keeps_files_print |]. intros _ _.
    eapply appends_bind; [apply keeps_files_appends, keeps_files_print |]. intros _ _.
    by apply keeps_files_appends, keeps_files_ret.
  - eapply appends_bind; [apply keeps_files_appends, keeps_files_response_json |].
    intros body _.
    eapply appends_bind;
      [by apply keeps_files_appends, (keeps_files_lift (λ _, True)) |]. intros environments _.
    eapply appends_bind;
      [by apply keeps_files_appends, (keeps_files_lift (λ _, True)) |]. intros envs _.
    eapply appends_bind.
    { apply keeps_files_appends. apply keeps_files_for_each with (P := Forall (row_of repo_name)).
      - intros acc x Hacc. by apply keeps_files_audit_environment.
      - done. }
    intros results Hresults.
    eapply appends_bind; [by apply appends_writerows |]. intros _ _.
    apply keeps_files_appends, keeps_files_print.
Qed.

(** *** What holds of the audit when every response is well shaped *)















(** *** The resolver *)

Lemma comprehension_full_names objs names :
  Forall2 (λ o n, has_field o "full_name" n) objs names →
  comprehension (λ repo, py_getitem repo "full_name") objs = Ok names.
Proof.
  induction 1 as [|o n objs names Hn _ IH]; [done |].
  simpl. by rewrite (has_field_getitem _ _ _ Hn), IH.
Qed.

Lemma serves_pages_cons base_url token start objs pages :
  serves_pages base_url token start (objs :: pages) →
  succeeds_with (page_request base_url token start) (JArr objs) ∧
  serves_pages base_url token (start + 1) pages.
Proof.
  intros H. split.
  - specialize (H 0%nat objs eq_refl). by rewrite Z.add_0_r in H.
  - intros i objs' Hi. specialize (H (S i) objs' Hi).
    by replace (start + 1 + Z.of_nat i)%Z with (start + Z.of_nat (S i))%Z by lia.
Qed.

(** The loop over a listing of [length pages] full pages that ends with an
    empty page or with a failure returns what the pages list, given fuel
    for one more request than there are pages. *)
Lemma fetch_pages_served base_url token pages names fuel repos start st :
  Forall2 (Forall2 (λ o n, has_field o "full_name" n)) pages names →
  Forall (λ objs, objs ≠ []) pages →
  serves_pages base_url token start pages →
  succeeds_with (page_request base_url token (start + Z.of_nat (length pages))) (JArr []) ∨
  fails (page_request base_url token (start + Z.of_nat (length pages))) →
  (length pages < fuel)%nat →
  ∃ st', fetch_pages fuel base_url (gh_headers token) repos start st
         = (Ok (repos ++ concat names), st').
Proof.
  intros Hnames. revert fuel repos start st.
  induction Hnames as [|objs ns pages names Hns _ IH];
    intros fuel repos start st Hfull Hserved Hend Hfuel.
  - destruct fuel as [|fuel]; [simpl in Hfuel; lia |].
    simpl in Hend. rewrite Z.add_0_r in Hend. simpl. rewrite app_nil_r.
    destruct Hend as [Hend | Hend].
    + destruct (requests_get_succeeds _ _ _ st Hend) as (r & st1 & Hget & Hc & Hj & _).
      exists st1. run. rewrite Hc. cbn [negb]. unfold response_json. rewrite Hj. by run.
    + destruct (requests_get_fails _ _ st Hend) as (r & st1 & Hget & Hc & _).
      eexists. run. rewrite Hc. cbn [negb]. by run.
  - destruct fuel as [|fuel]; [simpl in Hfuel; lia |].
    apply serves_pages_cons in Hserved as [Hpage Hserved].
    apply Forall_cons in Hfull as [Hne Hfull].
    destruct (requests_get_succeeds _ _ _ st Hpage) as (r & st1 & Hget & Hc & Hj & _).
    destruct (IH fuel (repos ++ ns) (start + 1)%Z st1 Hfull Hserved) as (st2 & Hrest).
    { simpl length in Hend.
      by replace (start + 1 + Z.of_nat (length pages))%Z
        with (start + Z.of_nat (S (length pages)))%Z by lia. }
    { simpl in Hfuel. lia. }
    exists st2. simpl fetch_pages. run. rewrite Hc. cbn [negb].
    unfold response_json. rewrite Hj. run.
    destruct objs as [|o objs]; [done |]. cbn [py_bool negb py_iter]. run.
    rewrite (comprehension_full_names _ _ Hns). run.
    rewrite Hrest. simpl. by rewrite app_assoc.
Qed.

Lemma length_concat_pages (names : list (list json)) (n : nat) :
  Forall (λ ns, length ns = n) names → length (concat names) = (n * length names)%nat.
Proof.
  induction 1 as [|ns names Hn _ IH]; simpl; [lia |].
  rewrite length_app, IH, Hn. lia.
Qed.


(** *** A call that fails is logged and skipped *)



Lemma analyze_skips repo_name token csv_writer st r :
  github (requests st) (environments_request repo_name token) = Responded r →
  status_code r ≠ 200%Z →
  analyze_github_repo_environments repo_name token csv_writer st
  = (Ok tt,
     mkState
       (stdout st ++ ["Attempting to dump config for " +:+ py_str repo_name;
                      "Error retrieving environments: " +:+ pretty (status_code r);
                      text r])
       (requests st ++ [environments_request repo_name token])
       (files st)).
Proof.
  intros Hr Hc. apply Z.eqb_neq in Hc.
  unfold analyze_github_repo_environments. run. unfold bind at 1. unfold requests_get.
  unfold environments_request, get_request, repo_url in Hr. cbn [requests stdout files].
  rewrite Hr, Hc. cbn [negb]. run. unfold ret. cbn [requests stdout files].
  by rewrite <- !app_assoc.
Qed.

(** ** The properties of the specification *)

(** C1 (pagination).  For every account: when the listing endpoint chosen
    after the probe serves [length pages] consecutive pages of 100
    repositories each, asked with [per_page=100] and page numbers from 1,
    and the next page is empty, [list_github_repos] returns the
    [100 * length pages] full names of the pages, concatenated in page
    order.  When the next page comes instead with a status that is not 200
    (any non-success status is such a status, [non_success_not_200]), it
    returns the names of the pages before it, and returns them normally. *)
Theorem C1_pagination account_name token fuel st org_response
    (pages names : list (list json)) :
  github (requests st) (get_request (org_url account_name) token) = Responded org_response →
  Forall (λ objs, length objs = 100%nat) pages →
  Forall2 (Forall2 (λ o n, has_field o "full_name" n)) pages names →
  serves_pages (listing_url account_name org_response) token 1 pages →
  succeeds_with
    (page_request (listing_url account_name org_response) token
       (1 + Z.of_nat (length pages))) (JArr []) ∨
  fails
    (page_request (listing_url account_name org_response) token
       (1 + Z.of_nat (length pages))) →
  (length pages < fuel)%nat →
  (list_github_repos fuel account_name token st).1 = Ok (concat names) ∧
  length (concat names) = (100 * length pages)%nat.
Proof.
  intros Hprobe Hfull Hnames Hserved Hend Hfuel. split.
  - unfold list_github_repos. unfold bind at 1. unfold requests_get.
    fold (get_request (org_url account_name) token). rewrite Hprobe.
    unfold listing_url in Hserved, Hend.
    set (st1 := mkState _ _ _).
    assert (Forall (λ objs : list json, objs ≠ []) pages) as Hne.
    { eapply Forall_impl; [exact Hfull |]. by intros [|] ?. }
    destruct (status_code org_response =? 200)%Z; cbn [negb]; run.
    + edestruct (fetch_pages_served (org_repos_url account_name) token pages names fuel [] 1)
        as (st2 & ->); done.
    + edestruct (fetch_pages_served (user_repos_url account_name) token pages names fuel [] 1)
        as (st2 & ->); done.
  - rewrite (length_concat_pages names 100).
    + by rewrite (Forall2_length _ _ _ Hnames).
    + clear Hserved Hend Hfuel. induction Hnames as [|objs ns pages names Hns _ IH]; [done |].
      apply Forall_cons in Hfull as [Hlen Hfull]. constructor; [| by apply IH].
      by rewrite <- (Forall2_length _ _ _ Hns).
Qed.




(** C5 (repository boundary).  For every repository whose
    environments-listing call does not come back with status 200, and for
    every repository whose list of environments is empty: the audit makes
    that one request, returns normally and leaves every file as it was; the
    loop over the repositories then goes on with the next one. *)
Theorem C5_no_rows_without_environments repo_name token csv_writer st :
  fails (environments_request repo_name token) ∨
  (∃ body, succeeds_with (environments_request repo_name token) body ∧
           entries body "environments" []) →
  ∃ st',
    analyze_github_repo_environments repo_name token csv_writer st = (Ok tt, st') ∧
    files st' = files st ∧
    requests st' = requests st ++ [environments_request repo_name token] ∧
    ∀ rest,
      for_each (λ _ repo, analyze_github_repo_environments repo token csv_writer)
        (repo_name :: rest) tt st
      = for_each (λ _ repo, analyze_github_repo_environments repo token csv_writer)
          rest tt st'.
Proof.
  intros H.
  assert (∃ st', analyze_github_repo_environments repo_name token csv_writer st = (Ok tt, st') ∧
                 files st' = files st ∧
                 requests st' = requests st ++ [environments_request repo_name token])
    as (st' & Hrun & Hf & Hr).
  { unfold analyze_github_repo_environments. run. fold (repo_url repo_name).
    unfold bind at 1. unfold requests_get. cbn [requests stdout files].
    fold (get_request (repo_url repo_name +:+ "/environments") token).
    fold (environments_request repo_name token).
    destruct H as [H | (body & H & Hent)].
    - destruct (H (requests st)) as (r & -> & Hc). apply Z.eqb_neq in Hc.
      rewrite Hc. cbn [negb]. run. by eexists.
    - destruct (H (requests st)) as (r & -> & Hc & Hj). apply Z.eqb_eq in Hc.
      rewrite Hc. cbn [negb]. unfold response_json. rewrite Hj. run.
      rewrite (entries_get _ _ _ Hent). run. simpl. by eexists. }
  exists st'. split_and!; [done | done | done |].
  intros rest. simpl. by rewrite (bind_Ok _ _ _ _ _ Hrun).
Qed.


(** What [main] does when [not github_token] holds. *)
Lemma main_without_token fuel argv environ st :
  not_token (environ !! "GITHUB_TOKEN") = true →
  ∃ code st',
    main fuel argv environ st = (Raise (SystemExit code), st') ∧
    requests st' = requests st ∧
    files st' = files st ∧
    ∀ args, parse_args argv = Parsed args →
      code = 1%Z ∧
      stdout st' = stdout st ++ ["Please set GITHUB_TOKEN environment variable"].
Proof.
  intros Hnot. unfold main. destruct (parse_args argv) as [args | code].
  - rewrite Hnot. exists 1%Z. eexists. split; [reflexivity |]. simpl.
    split_and!; [done | done |]. by intros ? [= <-].
  - exists code, st. split_and!; [done | done | done |]. by intros.
Qed.

(** C7 (missing credential).  When GITHUB_TOKEN is absent from the
    environment, [main] ends in [SystemExit] without a request having been
    made and without a file having been created or truncated; on a command
    line that [parse_args] accepts, the status is 1 and the message asking
    for the variable has been printed. *)
Theorem C7_missing_credential fuel argv (environ : gmap string string) st :
  environ !! "GITHUB_TOKEN" = None →
  ∃ code st',
    main fuel argv environ st = (Raise (SystemExit code), st') ∧
    requests st' = requests st ∧
    files st' = files st ∧
    ∀ args, parse_args argv = Parsed args →
      code = 1%Z ∧ code ≠ 0%Z ∧
      stdout st' = stdout st ++ ["Please set GITHUB_TOKEN environment variable"].
Proof.
  intros Habsent.
  destruct (main_without_token fuel argv environ st) as (code & st' & Hrun & Hr & Hf & Hexit).
  { by rewrite Habsent. }
  exists code, st'. split_and!; [done | done | done |].
  intros args Hargs. destruct (Hexit args Hargs) as [-> Hout]. by split_and!.
Qed.



(** C10 (empty credential).  When GITHUB_TOKEN is set to the empty string,
    [main] does what it does when the variable is absent: it ends in
    [SystemExit] without a request having been made and without a file
    having been created or truncated; on a command line that [parse_args]
    accepts, the status is 1 and the same message has been printed. *)
Theorem C10_empty_credential fuel argv (environ : gmap string string) st :
  environ !! "GITHUB_TOKEN" = Some "" →
  ∃ code st',
    main fuel argv environ st = (Raise (SystemExit code), st') ∧
    main fuel argv environ st = main fuel argv (delete "GITHUB_TOKEN" environ) st ∧
    requests st' = requests st ∧
    files st' = files st ∧
    ∀ args, parse_args argv = Parsed args →
      code = 1%Z ∧
      stdout st' = stdout st ++ ["Please set GITHUB_TOKEN environment variable"].
Proof.
  intros Hempty.
  destruct (main_without_token fuel argv environ st) as (code & st' & Hrun & Hr & Hf & Hexit).
  { by rewrite Hempty. }
  exists code, st'. split_and!; [done | | done | done | done].
  unfold main. destruct (parse_args argv) as [args | c]; [| done].
  by rewrite Hempty, lookup_delete_eq.
Qed.

(** ** Further properties of the program *)

(** *** A failed audit writes nothing *)




(** *** The exceptions that can leave the audit and the resolver *)

















Lemma keeps_files_fetch_pages fuel base_url headers repos page :
  keeps_files (λ _, True) (fetch_pages fuel base_url headers repos page).
Proof.
  revert repos page. induction fuel as [|fuel IH]; intros repos page; [by intros st |].
  simpl.
  eapply keeps_files_bind; [apply keeps_files_requests_get |]. intros r _.
  destruct (negb (status_code r =? 200)%Z).
  - eapply keeps_files_bind; [apply keeps_files_print |]. intros _ _.
    eapply keeps_files_bind; [apply keeps_files_print |]. intros _ _.
    by apply keeps_files_ret.
  - eapply keeps_files_bind; [apply keeps_files_response_json |]. intros page_repos _.
    destruct (negb (py_bool page_repos)); [by apply keeps_files_ret |].
    eapply keeps_files_bind; [by apply (keeps_files_lift (λ _, True)) |]. intros items _.
    eapply keeps_files_bind; [by apply (keeps_files_lift (λ _, True)) |]. intros names _.
    apply IH.
Qed.

Lemma keeps_files_list_github_repos fuel account_name token :
  keeps_files (λ _, True) (list_github_repos fuel account_name token).
Proof.
  unfold list_github_repos.
  eapply keeps_files_bind; [apply keeps_files_requests_get |]. intros r _.
  destruct (negb (status_code r =? 200)%Z);
    (eapply keeps_files_bind; [apply keeps_files_print |]; intros _ _;
     apply keeps_files_fetch_pages).
Qed.


(** *** Where the requests go *)

Lemma asks_same {A} P (m : M A) : (∀ st, requests (m st).2 = requests st) → asks P m.
Proof. intros H st. exists []. by rewrite H, app_nil_r. Qed.

Lemma asks_bind {A B} P (m : M A) (k : A → M B) :
  asks P m → (∀ a, asks P (k a)) → asks P (bind m k).
Proof.
  intros Hm Hk st. unfold bind. destruct (Hm st) as (new1 & Hr1 & Hp1).
  destruct (m st) as [[a | e |] st1]; simpl in *; [| by exists new1 | by exists new1].
  destruct (Hk a st1) as (new2 & Hr2 & Hp2).
  exists (new1 ++ new2). rewrite Hr2, Hr1, app_assoc. split; [done | by apply Forall_app].
Qed.

Lemma asks_for_each {A S} P (body : S → A → M S) xs acc :
  (∀ acc x, asks P (body acc x)) → asks P (for_each body xs acc).
Proof.
  intros Hbody. revert acc. induction xs as [|x xs IH]; intros acc; simpl.
  - by apply asks_same.
  - apply asks_bind; [apply Hbody | apply IH].
Qed.

Lemma asks_requests_get (P : Request → Prop) url headers :
  P (mkRequest url headers) → asks P (requests_get url headers).
Proof.
  intros H st. exists [mkRequest url headers]. unfold requests_get.
  destruct (github _ _); simpl; by split; [| constructor].
Qed.

Lemma asks_response_json P r : asks P (response_json r).
Proof. apply asks_same. intros st. unfold response_json. by destruct (json_body r). Qed.

Lemma asks_collect_secrets P base_url headers repo_name env_name results :
  P (mkRequest (base_url +:+ "/environments/" +:+ py_str env_name +:+ "/secrets") headers) →
  asks P (collect_secrets base_url headers repo_name env_name results).
Proof.
  intros H. unfold collect_secrets.
  apply asks_bind; [by apply asks_requests_get |]. intros r.
  destruct (status_code r =? 200)%Z.
  - apply asks_bind; [apply asks_response_json |]. intros body.
    apply asks_bind; [by apply asks_same |]. intros secrets.
    apply asks_bind; [by apply asks_same |]. intros items.
    apply asks_for_each. intros acc x. unfold append_secret.
    apply asks_bind; [by apply asks_same |]. intros name. by apply asks_same.
  - apply asks_bind; [by apply asks_same |]. intros _. by apply asks_same.
Qed.

Lemma asks_collect_variables P base_url headers repo_name env_name results :
  P (mkRequest (base_url +:+ "/environments/" +:+ py_str env_name +:+ "/variables") headers) →
  asks P (collect_variables base_url headers repo_name env_name results).
Proof.
  intros H. unfold collect_variables.
  apply asks_bind; [by apply asks_requests_get |]. intros r.
  destruct (status_code r =? 200)%Z.
  - apply asks_bind; [apply asks_response_json |]. intros body.
    apply asks_bind; [by apply asks_same |]. intros variables.
    apply asks_bind; [by apply asks_same |]. intros items.
    apply asks_for_each. intros acc x. unfold append_variable.
    apply asks_bind; [by apply asks_same |]. intros name.
    apply asks_bind; [by apply asks_same |]. intros value. by apply asks_same.
  - apply asks_bind; [by apply asks_same |]. intros _. by apply asks_same.
Qed.

Lemma asks_analyze token repo_name csv_writer :
  asks (api_request token) (analyze_github_repo_environments repo_name token csv_writer).
Proof.
  unfold analyze_github_repo_environments.
  apply asks_bind; [by apply asks_same |]. intros _.
  apply asks_bind.
  { apply asks_requests_get. split; [done |].
    by exists ("repos/" +:+ py_str repo_name +:+ "/environments"). }
  intros r. destruct (negb (status_code r =? 200)%Z).
  - apply asks_bind; [by apply asks_same |]. intros _.
    apply asks_bind; [by apply asks_same |]. intros _. by apply asks_same.
  - apply asks_bind; [apply asks_response_json |]. intros body.
    apply asks_bind; [by apply asks_same |]. intros environments.
    apply asks_bind; [by apply asks_same |]. intros envs.
    apply asks_bind.
    { apply asks_for_each. intros acc env. unfold audit_environment.
      apply asks_bind; [by apply asks_same |]. intros env_name.
      apply asks_bind.
      - apply asks_collect_secrets. split; [done |].
        by exists ("repos/" +:+ py_str repo_name +:+ "/environments/"
                   +:+ py_str env_name +:+ "/secrets").
      - intros results. apply asks_collect_variables. split; [done |].
        by exists ("repos/" +:+ py_str repo_name +:+ "/environments/"
                   +:+ py_str env_name +:+ "/variables"). }
    intros results.
    apply asks_bind; [| intros _; by apply asks_same].
    apply asks_for_each. intros [] row. by apply asks_same.
Qed.

Lemma asks_fetch_pages (P : Request → Prop) fuel base_url headers repos page :
  (∀ page, P (mkRequest (page_url base_url page) headers)) →
  asks P (fetch_pages fuel base_url headers repos page).
Proof.
  intros H. revert repos page.
  induction fuel as [|fuel IH]; intros repos page; [by apply asks_same |].
  simpl. apply asks_bind; [by apply asks_requests_get |]. intros r.
  destruct (negb (status_code r =? 200)%Z).
  - apply asks_bind; [by apply asks_same |]. intros _.
    apply asks_bind; [by apply asks_same |]. intros _. by apply asks_same.
  - apply asks_bind; [apply asks_response_json |]. intros page_repos.
    destruct (negb (py_bool page_repos)); [by apply asks_same |].
    apply asks_bind; [by apply asks_same |]. intros items.
    apply asks_bind; [by apply asks_same |]. intros names. apply IH.
Qed.

Lemma asks_list_github_repos fuel account_name token :
  asks (api_request token) (list_github_repos fuel account_name token).
Proof.
  unfold list_github_repos.
  apply asks_bind.
  { apply asks_requests_get. split; [done |]. by exists ("orgs/" +:+ account_name). }
  intros r. destruct (negb (status_code r =? 200)%Z).
  - apply asks_bind; [by apply asks_same |]. intros _.
    apply asks_fetch_pages. intros page. split; [done |].
    exists ("users/" +:+ (account_name +:+ "/repos") +:+ "?per_page=100&page=" +:+ pretty page).
    done.
  - apply asks_bind; [by apply asks_same |]. intros _.
    apply asks_fetch_pages. intros page. split; [done |].
    exists ("orgs/" +:+ (account_name +:+ "/repos") +:+ "?per_page=100&page=" +:+ pretty page).
    done.
Qed.

(** X4.  Whatever the API answers and whatever the command line and the
    environment are, every request of a run of the tool goes to an address
    under https://api.github.com/ and carries the same three headers, the
    credential as a Bearer token among them. *)
Theorem requests_go_to_github fuel argv (environ : gmap string string) st :
  ∃ new,
    requests (main fuel argv environ st).2 = requests st ++ new ∧
    Forall
      (λ rq,
         req_headers rq
         = [("Accept", "application/vnd.github+json");
            ("Authorization", "Bearer " +:+ default "" (environ !! "GITHUB_TOKEN"));
            ("X-GitHub-Api-Version", "2022-11-28")] ∧
         ∃ rest, req_url rq = "https://api.github.com/" +:+ rest)
      new.
Proof.
  revert st.
  change (asks (api_request (default "" (environ !! "GITHUB_TOKEN")))
            (main fuel argv environ)).
  unfold main. destruct (parse_args argv) as [args | code]; [| by apply asks_same].
  apply asks_bind.
  { destruct (not_token _); [| by apply asks_same].
    apply asks_bind; [by apply asks_same | intros; by apply asks_same]. }
  intros _. apply asks_bind; [apply asks_list_github_repos |]. intros repos.
  apply asks_bind.
  { apply asks_same. intros st. unfold open_w. by destruct (writable _). }
  intros csv_writer. apply asks_for_each. intros [] repo. apply asks_analyze.
Qed.

(** *** The requests of one audit *)

Lemma for_each_pure_state {A S} (body : S → A → M S) xs acc st :
  (∀ acc x st, (body acc x st).2 = st) → (for_each body xs acc st).2 = st.
Proof.
  intros Hbody. revert acc. induction xs as [|x xs IH]; intros acc; simpl; [done |].
  unfold bind. specialize (Hbody acc x st).
  destruct (body acc x st) as [[acc' | e |] st1]; simpl in *; subst st1; [apply IH | done | done].
Qed.

Lemma append_secret_state repo_name env_name results secret st :
  (append_secret repo_name env_name results secret st).2 = st.
Proof. unfold append_secret, bind, lift. by destruct (py_getitem secret "name"). Qed.

Lemma append_variable_state repo_name env_name results variable st :
  (append_variable repo_name env_name results variable st).2 = st.
Proof.
  unfold append_variable, bind, lift. destruct (py_getitem variable "name"); [| done | done].
  by destruct (py_get variable "value" (JStr "")).
Qed.

(** Whatever the answer, the secrets of an environment cost one request. *)
Lemma collect_secrets_one_request base_url headers repo_name env_name results st :
  requests (collect_secrets base_url headers repo_name env_name results st).2
  = requests st
    ++ [mkRequest (base_url +:+ "/environments/" +:+ py_str env_name +:+ "/secrets") headers].
Proof.
  unfold collect_secrets. unfold bind at 1. unfold requests_get.
  destruct (github _ _) as [r |]; [| done].
  destruct (status_code r =? 200)%Z; [| done].
  unfold response_json. destruct (json_body r) as [body |]; [| done]. run.
  destruct (py_get body "secrets" (JArr [])) as [secrets | e |]; [| done | done]. run.
  destruct (py_iter secrets) as [items | e |]; [| done | done]. run.
  rewrite for_each_pure_state; [done |]. intros. apply append_secret_state.
Qed.

Lemma collect_variables_one_request base_url headers repo_name env_name results st :
  requests (collect_variables base_url headers repo_name env_name results st).2
  = requests st
    ++ [mkRequest (base_url +:+ "/environments/" +:+ py_str env_name +:+ "/variables")
          headers].
Proof.
  unfold collect_variables. unfold bind at 1. unfold requests_get.
  destruct (github _ _) as [r |]; [| done].
  destruct (status_code r =? 200)%Z; [| done].
  unfold response_json. destruct (json_body r) as [body |]; [| done]. run.
  destruct (py_get body "variables" (JArr [])) as [variables | e |]; [| done | done]. run.
  destruct (py_iter variables) as [items | e |]; [| done | done]. run.
  rewrite for_each_pure_state; [done |]. intros. apply append_variable_state.
Qed.

Lemma audit_environment_requests repo_name token env v results st :
  has_field env "name" (ev_name v) →
  shows_secrets repo_name token v →
  shows_variables repo_name token v →
  ∃ st',
    audit_environment (repo_url repo_name) (gh_headers token) repo_name results env st
    = (Ok (results ++ map render (env_rows repo_name v)), st') ∧
    requests st'
    = requests st ++ [secrets_request repo_name (ev_name v) token;
                      variables_request repo_name (ev_name v) token].
Proof.
  intros Hn Hs Hv.
  destruct (collect_secrets_rows repo_name token v results st Hs) as (st1 & Hrun1 & _).
  destruct (collect_variables_rows repo_name token v
              (results ++ map render (secret_rows repo_name v)) st1 Hv)
    as (st2 & Hrun2 & _).
  pose proof (collect_secrets_one_request (repo_url repo_name) (gh_headers token)
                repo_name (ev_name v) results st) as Hr1.
  pose proof (collect_variables_one_request (repo_url repo_name) (gh_headers token)
                repo_name (ev_name v) (results ++ map render (secret_rows repo_name v)) st1)
    as Hr2.
  rewrite Hrun1 in Hr1. rewrite Hrun2 in Hr2. simpl in Hr1, Hr2.
  exists st2. unfold audit_environment. rewrite (has_field_getitem _ _ _ Hn). run.
  rewrite Hrun2. unfold env_rows. rewrite map_app, app_assoc. split; [done |].
  rewrite Hr2, Hr1. by rewrite <- app_assoc.
Qed.

Lemma for_each_audit_environment_requests repo_name token envs views results st :
  Forall2 (λ o v, has_field o "name" (ev_name v)) envs views →
  Forall (λ v, shows_secrets repo_name token v ∧ shows_variables repo_name token v) views →
  requests (for_each (audit_environment (repo_url repo_name) (gh_headers token) repo_name)
              envs results st).2
  = requests st
    ++ flat_map (λ v, [secrets_request repo_name (ev_name v) token;
                       variables_request repo_name (ev_name v) token]) views.
Proof.
  intros Hnames. revert results st.
  induction Hnames as [|env v envs views Hn _ IH]; intros results st Hall.
  - simpl. by rewrite app_nil_r.
  - apply Forall_cons in Hall as [[Hs Hv] Hall].
    destruct (audit_environment_requests repo_name token env v results st Hn Hs Hv)
      as (st1 & Hrun & Hreq).
    simpl for_each. rewrite (bind_Ok _ _ _ _ _ Hrun).
    rewrite (IH _ st1 Hall), Hreq. simpl flat_map. by rewrite <- !app_assoc.
Qed.

(** X5.  For a repository whose environments call fails, the audit makes
    that one request.  For a repository whose environments the API lists as
    [views], it then asks, environment after environment in the order of the
    listing, for the secrets and then for the variables, the variables also
    when the secrets call has failed; it makes no other request. *)
Theorem audit_request_order repo_name token csv_writer views st :
  audited repo_name token views →
  requests (analyze_github_repo_environments repo_name token csv_writer st).2
  = requests st
    ++ environments_request repo_name token
       :: flat_map (λ v, [secrets_request repo_name (ev_name v) token;
                          variables_request repo_name (ev_name v) token]) views.
Proof.
  intros [[(body & objs & Hcall & Hent & Hnames) Hall] | [Hfail ->]].
  - unfold analyze_github_repo_environments. run.
    set (st0 := mkState _ _ _).
    destruct (Hcall (requests st0)) as (r & Hr & Hc & Hj). apply Z.eqb_eq in Hc.
    fold (repo_url repo_name). unfold bind at 1. unfold requests_get.
    unfold environments_request, get_request in Hr. rewrite Hr, Hc. cbn [negb].
    unfold response_json. rewrite Hj. run.
    rewrite (entries_get _ _ _ Hent). run. simpl py_iter. run.
    set (st1 := mkState _ _ _).
    destruct (for_each_audit_environment repo_name token objs views [] st1 Hnames Hall)
      as (st2 & Hloop & _).
    pose proof (for_each_audit_environment_requests repo_name token objs views [] st1
                  Hnames Hall) as Hreq.
    rewrite Hloop in Hreq. simpl in Hreq. run.
    destruct (for_each_writerow csv_writer ([] ++ map render (flat_map (env_rows repo_name) views))
                st2) as (st3 & Hwrite & _ & _ & _ & _ & Hr3).
    run. simpl. rewrite Hr3, Hreq. subst st1 st0. simpl. by rewrite <- app_assoc.
  - destruct (Hfail (requests st)) as (r & Hr & Hc).
    by rewrite (analyze_skips repo_name token csv_writer st r Hr Hc).
Qed.

(** *** A listing without an end *)

Lemma fetch_pages_endless base_url token fuel repos page st :
  endless base_url token →
  (fetch_pages fuel base_url (gh_headers token) repos page st).1 = OutOfFuel.
Proof.
  intros H. revert repos page st. induction fuel as [|fuel IH]; intros repos page st; [done |].
  destruct (H (requests st) page) as (r & objs & names & Hr & Hc & Hj & Hne & Hnames).
  apply Z.eqb_eq in Hc.
  simpl. unfold bind at 1. unfold requests_get.
  unfold page_request, get_request in Hr. rewrite Hr, Hc. cbn [negb].
  unfold response_json. rewrite Hj. run.
  destruct objs as [|o objs]; [done |]. cbn [py_bool negb py_iter]. run.
  rewrite (comprehension_full_names _ _ Hnames). run. apply IH.
Qed.

(** X6.  The loop over the pages has no bound of its own: when the listing
    endpoint answers every page, whatever its number, with status 200 and a
    list of repositories that is not empty, the resolver does not return,
    however many pages it is given the time to ask. *)
Theorem resolver_needs_an_empty_page account_name token st org_response :
  github (requests st) (get_request (org_url account_name) token) = Responded org_response →
  endless (listing_url account_name org_response) token →
  ∀ fuel, (list_github_repos fuel account_name token st).1 = OutOfFuel.
Proof.
  intros Hprobe Hendless fuel.
  unfold list_github_repos. unfold bind at 1. unfold requests_get.
  fold (get_request (org_url account_name) token). rewrite Hprobe.
  unfold listing_url in Hendless.
  destruct (status_code org_response =? 200)%Z; cbn [negb]; run;
    by apply fetch_pages_endless.
Qed.

(** *** An account that does not exist *)

(** X7.  When neither the organization probe nor the first page of the user
    listing comes back with status 200, as for an account that does not
    exist, a run with a credential returns normally: it has made these two
    requests, printed the status and the body of the second answer, and left
    the output file created, or truncated, and empty. *)
Theorem unknown_account_gives_empty_file fuel argv (environ : gmap string string) st
    args token org_response page_response :
  parse_args argv = Parsed args →
  environ !! "GITHUB_TOKEN" = Some token →
  token ≠ "" →
  github (requests st) (get_request (org_url (org args)) token) = Responded org_response →
  status_code org_response ≠ 200%Z →
  github (requests st ++ [get_request (org_url (org args)) token])
    (page_request (user_repos_url (org args)) token 1) = Responded page_response →
  status_code page_response ≠ 200%Z →
  writable (csv args) = true →
  (0 < fuel)%nat →
  main fuel argv environ st
  = (Ok tt,
     mkState
       (stdout st ++ ["Detected account type: user";
                      "Error: " +:+ pretty (status_code page_response);
                      text page_response])
       (requests st ++ [get_request (org_url (org args)) token;
                        page_request (user_repos_url (org args)) token 1])
       (<[csv args := []]> (files st))).
Proof.
  intros Hargs Htoken Hne Hprobe Hc0 Hpage Hc1 Hw Hfuel.
  apply Z.eqb_neq in Hc0, Hc1. apply String.eqb_neq in Hne.
  destruct fuel as [|fuel]; [lia |].
  unfold main. rewrite Hargs, Htoken. cbn [not_token default]. unfold id. rewrite Hne. run.
  unfold list_github_repos. unfold bind at 1. unfold bind at 1. unfold requests_get.
  unfold get_request in Hprobe. rewrite Hprobe, Hc0. cbn [negb]. run.
  simpl fetch_pages. unfold bind at 1. unfold bind at 1. unfold requests_get.
  cbn [requests stdout files].
  unfold page_request, get_request in Hpage. rewrite Hpage, Hc1. cbn [negb]. run.
  unfold open_w at 1. cbn [requests stdout files]. rewrite Hw. simpl.
  unfold get_request, page_request, get_request. by rewrite <- !app_assoc.
Qed.

(** *** A whole run *)




(** *** What a run does to the files *)

Lemma audit_all_appends token csv_writer repos st :
  ∃ rows,
    written
      (for_each (λ _ repo_name, analyze_github_repo_environments repo_name token csv_writer)
         repos tt st).2 csv_writer
    = written st csv_writer ++ rows ∧
    Forall (λ row, ∃ repo, repo ∈ repos ∧ row_of repo row) rows ∧
    ∀ p, p ≠ csv_writer →
      files
        (for_each (λ _ repo_name, analyze_github_repo_environments repo_name token csv_writer)
           repos tt st).2 !! p
      = files st !! p.
Proof.
  revert st. induction repos as [|repo repos IH]; intros st.
  - exists []. simpl. by rewrite app_nil_r.
  - simpl. unfold bind.
    destruct (analyze_appends repo token csv_writer st) as [(rows1 & Hw1 & Hall1 & Ho1) _].
    assert (Forall (λ row, ∃ repo0, repo0 ∈ repo :: repos ∧ row_of repo0 row) rows1) as Hall1'.
    { eapply Forall_impl; [exact Hall1 |]. intros row Hrow. exists repo.
      split; [apply list_elem_of_here | done]. }
    destruct (analyze_github_repo_environments repo token csv_writer st)
      as [[[] | e |] st1]; simpl in *; [| by exists rows1 | by exists rows1].
    destruct (IH st1) as (rows2 & Hw2 & Hall2 & Ho2).
    exists (rows1 ++ rows2). split_and!.
    + by rewrite Hw2, Hw1, app_assoc.
    + apply Forall_app. split; [done |].
      eapply Forall_impl; [exact Hall2 |]. intros row (repo0 & Hin & Hrow).
      exists repo0. split; [by apply list_elem_of_further | done].
    + intros p Hp. by rewrite Ho2, Ho1.
Qed.

(** X9.  Whatever the API answers, a run on an accepted command line
    changes no file but the output file.  And either it changes no file at
    all, or the listing has returned and the output file holds nothing of
    what it held before: each of its rows is a row of one of the
    repositories listed. *)
Theorem run_touches_only_the_output fuel argv (environ : gmap string string) st args :
  parse_args argv = Parsed args →
  (∀ p, p ≠ csv args → files (main fuel argv environ st).2 !! p = files st !! p) ∧
  (files (main fuel argv environ st).2 = files st ∨
   ∃ repos st1,
     list_github_repos fuel (org args) (default "" (environ !! "GITHUB_TOKEN")) st
     = (Ok repos, st1) ∧
     Forall (λ row, ∃ repo, repo ∈ repos ∧ row_of repo row)
       (written (main fuel argv environ st).2 (csv args))).
Proof.
  intros Hargs. unfold main. rewrite Hargs.
  destruct (not_token (environ !! "GITHUB_TOKEN")); [by split; [| left] |]. run.
  destruct (keeps_files_list_github_repos fuel (org args)
              (default "" (environ !! "GITHUB_TOKEN")) st) as [Hf1 _].
  unfold bind.
  destruct (list_github_repos fuel (org args) (default "" (environ !! "GITHUB_TOKEN")) st)
    as [[repos | e |] st1] eqn:Hlist; simpl in Hf1;
    [| simpl; rewrite Hf1; by split; [| left] | simpl; rewrite Hf1; by split; [| left]].
  unfold open_w.
  destruct (writable (csv args)); [| simpl; rewrite Hf1; by split; [| left]].
  set (st2 := mkState (stdout st1) (requests st1) (<[csv args := []]> (files st1))).
  destruct (audit_all_appends (default "" (environ !! "GITHUB_TOKEN")) (csv args) repos st2)
    as (rows & Hw & Hall & Ho).
  split.
  - intros p Hp. rewrite (Ho p Hp). unfold st2. simpl. by rewrite lookup_insert_ne, Hf1.
  - right. exists repos, st1. split; [done |]. rewrite Hw.
    unfold written at 1, st2. simpl. by rewrite lookup_insert_eq.
Qed.

(** *** A repository whose audit raises *)



(** *** The requests of a listing *)

Lemma fetch_pages_served_requests base_url token pages names fuel repos start st :
  Forall2 (Forall2 (λ o n, has_field o "full_name" n)) pages names →
  Forall (λ objs, objs ≠ []) pages →
  serves_pages base_url token start pages →
  succeeds_with (page_request base_url token (start + Z.of_nat (length pages))) (JArr []) ∨
  fails (page_request base_url token (start + Z.of_nat (length pages))) →
  (length pages < fuel)%nat →
  requests (fetch_pages fuel base_url (gh_headers token) repos start st).2
  = requests st
    ++ map (λ i, page_request base_url token (start + Z.of_nat i)) (seq 0 (S (length pages))).
Proof.
  intros Hnames. revert fuel repos start st.
  induction Hnames as [|objs ns pages names Hns _ IH];
    intros fuel repos start st Hfull Hserved Hend Hfuel.
  - destruct fuel as [|fuel]; [simpl in Hfuel; lia |].
    simpl in Hend. rewrite Z.add_0_r in Hend. simpl. rewrite Z.add_0_r.
    unfold bind at 1. unfold requests_get.
    destruct Hend as [Hend | Hend].
    + destruct (Hend (requests st)) as (r & Hr & Hc & Hj). apply Z.eqb_eq in Hc.
      unfold page_request, get_request in Hr. rewrite Hr, Hc. cbn [negb].
      unfold response_json. rewrite Hj. by run.
    + destruct (Hend (requests st)) as (r & Hr & Hc). apply Z.eqb_neq in Hc.
      unfold page_request, get_request in Hr. rewrite Hr, Hc. cbn [negb]. by run.
  - destruct fuel as [|fuel]; [simpl in Hfuel; lia |].
    apply serves_pages_cons in Hserved as [Hpage Hserved].
    apply Forall_cons in Hfull as [Hne Hfull].
    destruct (Hpage (requests st)) as (r & Hr & Hc & Hj). apply Z.eqb_eq in Hc.
    simpl fetch_pages. unfold bind at 1. unfold requests_get.
    unfold page_request, get_request in Hr. rewrite Hr, Hc. cbn [negb].
    unfold response_json. rewrite Hj. run.
    destruct objs as [|o objs]; [done |]. cbn [py_bool negb py_iter]. run.
    rewrite (comprehension_full_names _ _ Hns). run.
    rewrite IH; [| done | done | | simpl in Hfuel; lia].
    + cbn [requests length]. rewrite <- app_assoc. f_equal.
      rewrite <- (cons_seq (S (length pages)) 0), <- fmap_S_seq. cbn [map].
      rewrite Z.add_0_r. f_equal.
      rewrite <- list_fmap_compose. apply list_fmap_ext. intros _ i _. simpl.
      by replace (start + 1 + Z.of_nat i)%Z with (start + Z.of_nat (S i))%Z by lia.
    + simpl length in Hend.
      by replace (start + 1 + Z.of_nat (length pages))%Z
        with (start + Z.of_nat (S (length pages)))%Z by lia.
Qed.

(** X11.  When the listing endpoint serves [length pages] pages that are not
    empty and then an empty page or a page with a status other than 200, the
    resolver makes the probe and then exactly one request for each of the
    pages 1 to [length pages + 1], in this order: it asks for no page after
    the one that ends the listing. *)
Theorem resolver_request_count account_name token fuel st org_response
    (pages names : list (list json)) :
  github (requests st) (get_request (org_url account_name) token) = Responded org_response →
  Forall (λ objs, objs ≠ []) pages →
  Forall2 (Forall2 (λ o n, has_field o "full_name" n)) pages names →
  serves_pages (listing_url account_name org_response) token 1 pages →
  succeeds_with
    (page_request (listing_url account_name org_response) token
       (1 + Z.of_nat (length pages))) (JArr []) ∨
  fails
    (page_request (listing_url account_name org_response) token
       (1 + Z.of_nat (length pages))) →
  (length pages < fuel)%nat →
  requests (list_github_repos fuel account_name token st).2
  = requests st
    ++ get_request (org_url account_name) token
       :: map (λ i, page_request (listing_url account_name org_response) token
                      (1 + Z.of_nat i))
            (seq 0 (S (length pages))).
Proof.
  intros Hprobe Hne Hnames Hserved Hend Hfuel.
  unfold list_github_repos. unfold bind at 1. unfold requests_get.
  fold (get_request (org_url account_name) token). rewrite Hprobe.
  unfold listing_url in *.
  destruct (status_code org_response =? 200)%Z; cbn [negb]; run;
    (erewrite fetch_pages_served_requests; [| done | done | done | done | done]);
    cbn [requests]; by rewrite <- app_assoc.
Qed.

End Program.

(** ** The sample API under the statements *)

Lemma sample_has_field fields key v :
  dict_lookup key fields = Some v → has_field (JObj fields) key v.
Proof. intros H. by exists fields. Defined.

Lemma sample_full_names account :
  Forall2 (λ o n, has_field o "full_name" n) (sample_page account) (sample_names account).
Proof.
  unfold sample_page, sample_names.
  apply Forall2_fmap, Forall_Forall2_diag, Forall_forall.
  intros i _. by apply sample_has_field.
Defined.

(** Closes the goals about a call to the sample API and about the fields of
    a given object. *)
Ltac sample :=
  lazymatch goal with
  | |- succeeds_with _ _ _ => intros ?; eexists; split_and!; reflexivity
  | |- fails _ _ => intros ?; eexists; split; [reflexivity | done]
  | |- entries _ _ _ => left; by apply sample_has_field
  | |- has_field _ _ _ => by apply sample_has_field
  | |- lacks_field _ _ => by eexists
  end.

Lemma sample_shows_site :
  shows_environments sample_str sample_github (JStr "tiny/site") "t0k3n" site_views.
Proof.
  split.
  - eexists _, _. split_and!; [sample | sample |].
    constructor; [sample |]. constructor; [sample |]. constructor.
  - unfold shows_secrets, shows_variables.
    constructor; [split; simpl | constructor; [split; simpl | constructor]].
    + eexists _, _. split_and!; [sample | sample |].
      constructor; [sample |]. constructor; [sample |]. constructor.
    + eexists _, _. split_and!; [sample | sample |].
      constructor; [| constructor]. split; [sample | left; sample].
    + sample.
    + eexists _, _. split_and!; [sample | sample |].
      constructor; [| constructor]. split; [sample |].
      right. split; [sample | done].
Defined.




(** What the audit of the sample repository writes. *)
Example sample_site_rows :
  written (analyze_github_repo_environments sample_str sample_github
             (JStr "tiny/site") "t0k3n" "out.csv" empty_state).2 "out.csv"
  = [ [JStr "SECRET"; JStr "tiny/site"; JStr "prod"; JStr "A"];
      [JStr "SECRET"; JStr "tiny/site"; JStr "prod"; JStr "B"];
      [JStr "VARIABLE"; JStr "tiny/site"; JStr "prod"; JStr "X"; JStr "1"];
      [JStr "VARIABLE"; JStr "tiny/site"; JStr "staging"; JStr "Y"; JStr ""] ].
Proof. by vm_compute. Qed.

(** A whole run of the tool on the organization [tiny]. *)
Example sample_run :
  main sample_str sample_github sample_parse_args sample_writable 3
    ["--org"; "tiny"; "--csv"; "out.csv"] {["GITHUB_TOKEN" := "t0k3n"]} empty_state
  = (Ok tt,
     mkState
       [ "Detected account type: organization";
         "Attempting to dump config for tiny/site";
         "Error retrieving secrets for environment staging: 403";
         "success. results added to output";
         "Attempting to dump config for tiny/gone";
         "Error retrieving environments: 404";
         "Not Found";
         "Attempting to dump config for tiny/empty";
         "success. results added to output" ]
       (map (λ url, get_request url "t0k3n")
          [ "https://api.github.com/orgs/tiny";
            "https://api.github.com/orgs/tiny/repos?per_page=100&page=1";
            "https://api.github.com/orgs/tiny/repos?per_page=100&page=2";
            "https://api.github.com/repos/tiny/site/environments";
            "https://api.github.com/repos/tiny/site/environments/prod/secrets";
            "https://api.github.com/repos/tiny/site/environments/prod/variables";
            "https://api.github.com/repos/tiny/site/environments/staging/secrets";
            "https://api.github.com/repos/tiny/site/environments/staging/variables";
            "https://api.github.com/repos/tiny/gone/environments";
            "https://api.github.com/repos/tiny/empty/environments" ])
       {[ "out.csv" :=
            [ [JStr "SECRET"; JStr "tiny/site"; JStr "prod"; JStr "A"];
              [JStr "SECRET"; JStr "tiny/site"; JStr "prod"; JStr "B"];
              [JStr "VARIABLE"; JStr "tiny/site"; JStr "prod"; JStr "X"; JStr "1"];
              [JStr "VARIABLE"; JStr "tiny/site"; JStr "staging"; JStr "Y"; JStr ""] ] ]}).
Proof. by vm_compute. Qed.

Lemma C1_pagination_witness :
  ((list_github_repos sample_github 2 "acme" "t0k3n" empty_state).1
   = Ok (concat [sample_names "acme"]) ∧
   length (concat [sample_names "acme"]) = (100 * 1)%nat) ∧
  ((list_github_repos sample_github 2 "bob" "t0k3n" empty_state).1
   = Ok (concat [sample_names "bob"]) ∧
   length (concat [sample_names "bob"]) = (100 * 1)%nat).
Proof.
  split.
  - apply (C1_pagination sample_github "acme" "t0k3n" 2 empty_state
             (ok_json (JObj [("login", JStr "acme")])) [sample_page "acme"]).
    + reflexivity.
    + constructor; [reflexivity | constructor].
    + constructor; [apply sample_full_names | constructor].
    + intros [|[|i]] objs [= <-]. intros h. eexists. split_and!; reflexivity.
    + left. intros h. eexists. split_and!; reflexivity.
    + simpl. lia.
  - apply (C1_pagination sample_github "bob" "t0k3n" 2 empty_state
             not_found [sample_page "bob"]).
    + reflexivity.
    + constructor; [reflexivity | constructor].
    + constructor; [apply sample_full_names | constructor].
    + intros [|[|i]] objs [= <-]. intros h. eexists. split_and!; reflexivity.
    + right. intros h. eexists. split; [reflexivity | done].
    + simpl. lia.
Defined.




Lemma C5_no_rows_without_environments_witness :
  (fails sample_github (environments_request sample_str (JStr "tiny/gone") "t0k3n") ∧
   ∃ st',
     analyze_github_repo_environments sample_str sample_github
       (JStr "tiny/gone") "t0k3n" "out.csv" empty_state = (Ok tt, st') ∧
     files st' = files empty_state ∧
     requests st'
     = requests empty_state ++ [environments_request sample_str (JStr "tiny/gone") "t0k3n"] ∧
     ∀ rest,
       for_each (λ _ repo, analyze_github_repo_environments sample_str sample_github
                             repo "t0k3n" "out.csv")
         (JStr "tiny/gone" :: rest) tt empty_state
       = for_each (λ _ repo, analyze_github_repo_environments sample_str sample_github
                               repo "t0k3n" "out.csv")
           rest tt st') ∧
  ((∃ body,
      succeeds_with sample_github
        (environments_request sample_str (JStr "tiny/empty") "t0k3n") body ∧
      entries body "environments" []) ∧
   ∃ st',
     analyze_github_repo_environments sample_str sample_github
       (JStr "tiny/empty") "t0k3n" "out.csv" empty_state = (Ok tt, st') ∧
     files st' = files empty_state ∧
     requests st'
     = requests empty_state ++ [environments_request sample_str (JStr "tiny/empty") "t0k3n"] ∧
     ∀ rest,
       for_each (λ _ repo, analyze_github_repo_environments sample_str sample_github
                             repo "t0k3n" "out.csv")
         (JStr "tiny/empty" :: rest) tt empty_state
       = for_each (λ _ repo, analyze_github_repo_environments sample_str sample_github
                               repo "t0k3n" "out.csv")
           rest tt st').
Proof.
  split.
  - split; [sample |].
    apply (C5_no_rows_without_environments sample_str sample_github
             (JStr "tiny/gone") "t0k3n" "out.csv" empty_state).
    left. sample.
  - split; [eexists; split; [sample | sample] |].
    apply (C5_no_rows_without_environments sample_str sample_github
             (JStr "tiny/empty") "t0k3n" "out.csv" empty_state).
    right. eexists. split; [sample | sample].
Defined.


Lemma C7_missing_credential_witness :
  (∅ : gmap string string) !! "GITHUB_TOKEN" = None ∧
  ∃ code st',
    main sample_str sample_github sample_parse_args sample_writable 2
      ["--org"; "acme"; "--csv"; "out.csv"] ∅ empty_state
    = (Raise (SystemExit code), st') ∧
    requests st' = requests empty_state ∧
    files st' = files empty_state ∧
    ∀ args, sample_parse_args ["--org"; "acme"; "--csv"; "out.csv"] = Parsed args →
      code = 1%Z ∧ code ≠ 0%Z ∧
      stdout st' = stdout empty_state ++ ["Please set GITHUB_TOKEN environment variable"].
Proof.
  split; [reflexivity |].
  apply (C7_missing_credential sample_str sample_github sample_parse_args sample_writable 2
           ["--org"; "acme"; "--csv"; "out.csv"] ∅ empty_state).
  reflexivity.
Defined.



Lemma C10_empty_credential_witness :
  ({["GITHUB_TOKEN" := ""]} : gmap string string) !! "GITHUB_TOKEN" = Some "" ∧
  ∃ code st',
    main sample_str sample_github sample_parse_args sample_writable 2
      ["--org"; "acme"; "--csv"; "out.csv"] {["GITHUB_TOKEN" := ""]} empty_state
    = (Raise (SystemExit code), st') ∧
    main sample_str sample_github sample_parse_args sample_writable 2
      ["--org"; "acme"; "--csv"; "out.csv"] {["GITHUB_TOKEN" := ""]} empty_state
    = main sample_str sample_github sample_parse_args sample_writable 2
        ["--org"; "acme"; "--csv"; "out.csv"]
        (delete "GITHUB_TOKEN" {["GITHUB_TOKEN" := ""]}) empty_state ∧
    requests st' = requests empty_state ∧
    files st' = files empty_state ∧
    ∀ args, sample_parse_args ["--org"; "acme"; "--csv"; "out.csv"] = Parsed args →
      code = 1%Z ∧
      stdout st' = stdout empty_state ++ ["Please set GITHUB_TOKEN environment variable"].
Proof.
  split; [reflexivity |].
  apply (C10_empty_credential sample_str sample_github sample_parse_args sample_writable 2
           ["--org"; "acme"; "--csv"; "out.csv"] {["GITHUB_TOKEN" := ""]} empty_state).
  reflexivity.
Defined.

(** ** The sample API under the further properties *)


(** The failing audit of [late/fail] had asked for the secrets and the
    variables of the first environment. *)
Example late_failure_requests :
  map req_url
    (requests (analyze_github_repo_environments sample_str late_github
                 (JStr "late/fail") "t0k3n" "out.csv" empty_state).2)
  = [ "https://api.github.com/repos/late/fail/environments";
      "https://api.github.com/repos/late/fail/environments/prod/secrets";
      "https://api.github.com/repos/late/fail/environments/prod/variables" ].
Proof. by vm_compute. Qed.

Lemma audit_request_order_witness :
  audited sample_str sample_github (JStr "tiny/site") "t0k3n" site_views ∧
  requests (analyze_github_repo_environments sample_str sample_github
              (JStr "tiny/site") "t0k3n" "out.csv" empty_state).2
  = requests empty_state
    ++ environments_request sample_str (JStr "tiny/site") "t0k3n"
       :: flat_map (λ v, [secrets_request sample_str (JStr "tiny/site") (ev_name v) "t0k3n";
                          variables_request sample_str (JStr "tiny/site") (ev_name v) "t0k3n"])
            site_views.
Proof.
  split; [left; apply sample_shows_site |].
  apply (audit_request_order sample_str sample_github
           (JStr "tiny/site") "t0k3n" "out.csv" site_views empty_state).
  left. apply sample_shows_site.
Defined.

Lemma endless_github_endless base_url token : endless endless_github base_url token.
Proof.
  intros h page. eexists _, _, [JStr "loop/again"]. split_and!; [done | done | done | done |].
  constructor; [by apply sample_has_field | constructor].
Defined.

Lemma resolver_needs_an_empty_page_witness :
  (list_github_repos endless_github 1000 "loop" "t0k3n" empty_state).1 = OutOfFuel.
Proof.
  apply (resolver_needs_an_empty_page endless_github "loop" "t0k3n" empty_state
           (ok_json (JArr [JObj [("id", JInt 1); ("full_name", JStr "loop/again")]]))).
  - reflexivity.
  - apply endless_github_endless.
Defined.

Lemma unknown_account_gives_empty_file_witness :
  main sample_str sample_github sample_parse_args sample_writable 1
    ["--org"; "ghost"; "--csv"; "out.csv"] {["GITHUB_TOKEN" := "t0k3n"]} empty_state
  = (Ok tt,
     mkState
       (stdout empty_state ++ ["Detected account type: user";
                               "Error: " +:+ pretty (status_code not_found);
                               text not_found])
       (requests empty_state ++ [get_request (org_url "ghost") "t0k3n";
                                 page_request (user_repos_url "ghost") "t0k3n" 1])
       (<["out.csv" := []]> (files empty_state))).
Proof.
  apply (unknown_account_gives_empty_file sample_str sample_github sample_parse_args
           sample_writable 1 ["--org"; "ghost"; "--csv"; "out.csv"]
           {["GITHUB_TOKEN" := "t0k3n"]} empty_state
           (mkNamespace "ghost" "out.csv") "t0k3n" not_found not_found).
  - reflexivity.
  - reflexivity.
  - discriminate.
  - reflexivity.
  - discriminate.
  - reflexivity.
  - discriminate.
  - reflexivity.
  - lia.
Defined.



Lemma run_touches_only_the_output_witness :
  sample_parse_args ["--org"; "tiny"; "--csv"; "out.csv"] = Parsed (mkNamespace "tiny" "out.csv") ∧
  (∀ p, p ≠ "out.csv" →
     files (main sample_str sample_github sample_parse_args sample_writable 2
              ["--org"; "tiny"; "--csv"; "out.csv"] {["GITHUB_TOKEN" := "t0k3n"]}
              (mkState [] [] {["out.csv" := [[JStr "old"]]; "other.csv" := [[JStr "kept"]]]})).2
       !! p
     = ({["out.csv" := [[JStr "old"]]; "other.csv" := [[JStr "kept"]]]}
          : gmap string (list Row)) !! p).
Proof.
  split; [reflexivity |].
  destruct (run_touches_only_the_output sample_str sample_github sample_parse_args
              sample_writable 2 ["--org"; "tiny"; "--csv"; "out.csv"]
              {["GITHUB_TOKEN" := "t0k3n"]}
              (mkState [] [] {["out.csv" := [[JStr "old"]]; "other.csv" := [[JStr "kept"]]]})
              (mkNamespace "tiny" "out.csv")) as [Hothers _]; [reflexivity |].
  exact Hothers.
Defined.

(** The rows that the output file held before the run are gone after it. *)
Example sample_run_truncates :
  written
    (main sample_str sample_github sample_parse_args sample_writable 2
       ["--org"; "tiny"; "--csv"; "out.csv"] {["GITHUB_TOKEN" := "t0k3n"]}
       (mkState [] [] {["out.csv" := [[JStr "old"]]; "other.csv" := [[JStr "kept"]]]})).2
    "out.csv"
  = [ [JStr "SECRET"; JStr "tiny/site"; JStr "prod"; JStr "A"];
      [JStr "SECRET"; JStr "tiny/site"; JStr "prod"; JStr "B"];
      [JStr "VARIABLE"; JStr "tiny/site"; JStr "prod"; JStr "X"; JStr "1"];
      [JStr "VARIABLE"; JStr "tiny/site"; JStr "staging"; JStr "Y"; JStr ""] ].
Proof. by vm_compute. Qed.


Lemma resolver_request_count_witness :
  requests (list_github_repos sample_github 2 "bob" "t0k3n" empty_state).2
  = requests empty_state
    ++ get_request (org_url "bob") "t0k3n"
       :: map (λ i, page_request (listing_url "bob" not_found) "t0k3n" (1 + Z.of_nat i))
            (seq 0 (S (length [sample_page "bob"]))).
Proof.
  apply (resolver_request_count sample_github "bob" "t0k3n" 2 empty_state not_found
           [sample_page "bob"] [sample_names "bob"]).
  - reflexivity.
  - constructor; [discriminate | constructor].
  - constructor; [apply sample_full_names | constructor].
  - intros [|[|i]] objs [= <-]. sample.
  - right. sample.
  - simpl. lia.
Defined.
